(** * Popular-times aggregation: [src/app/scripts/analyze_parking_data.py]

    A shallow embedding of the fetch / aggregate / write pipeline of
    [analyze_parking_data], and the properties of its per-lot summaries.

    Conventions of the embedding
    - Python [str] is [string], read as ASCII text.
    - Python [int] is [Z]; a Firestore integer is a signed 64-bit value and
      always fits the int64 column pandas builds for it.
    - Python / NumPy [float] is IEEE-754 binary64, here [spec_float] with
      precision 53 and maximal exponent 1024 (no NaN payloads).
    - A [dict] is an association list in insertion order.
    - Exceptions are the [Raise] case of [result]; nothing in the script
      catches an exception raised inside [analyze_parking_data]. *)

From Stdlib Require Import ZArith List String Ascii Bool Lia Permutation.
From Stdlib Require Import Floats.SpecFloat.
Import ListNotations.

Local Open Scope string_scope.
Local Open Scope Z_scope.

(** ** Exceptions and the error monad *)

Inductive exn : Type :=
| KeyError (key : string)
| ValueError_int (literal : string)
| ValueError_duplicate_labels
| FetchError (detail : string)
| OSError (detail : string).

Inductive result (A : Type) : Type :=
| Ok (a : A)
| Raise (e : exn).

Arguments Ok {A} a.
Arguments Raise {A} e.

Definition bind {A B : Type} (r : result A) (k : A -> result B) : result B :=
  match r with
  | Ok a => k a
  | Raise e => Raise e
  end.

Notation "x <- r ;; k" := (bind r (fun x => k))
  (at level 61, r at next level, right associativity).

Definition is_ok {A : Type} (r : result A) : bool :=
  match r with Ok _ => true | Raise _ => false end.

(** [for x in xs: acc = body x acc], an exception leaving the loop. *)
Fixpoint for_each {A S : Type} (body : A -> S -> result S) (xs : list A) (acc : S)
  : result S :=
  match xs with
  | [] => Ok acc
  | x :: rest => acc' <- body x acc ;; for_each body rest acc'
  end.

(** [[f x for x in xs]], an exception leaving the comprehension. *)
Fixpoint comprehension {A B : Type} (f : A -> result B) (xs : list A)
  : result (list B) :=
  match xs with
  | [] => Ok []
  | x :: rest => y <- f x ;; ys <- comprehension f rest ;; Ok (y :: ys)
  end.

(** ** Python built-ins used by the script *)

Module Py.

(** The white space [int] strips from both ends of an ASCII string: tab,
    line feed, vertical tab, form feed, carriage return and space. *)
Definition isspace (c : ascii) : bool :=
  let n := N_of_ascii c in
  ((9 <=? n) && (n <=? 13) || (n =? 32))%N.

Definition digit_value (c : ascii) : option Z :=
  let n := Z.of_N (N_of_ascii c) in
  if (48 <=? n) && (n <=? 57) then Some (n - 48) else None.

Definition is_underscore (c : ascii) : bool := (N_of_ascii c =? 95)%N.

Fixpoint lstrip (s : list ascii) : list ascii :=
  match s with
  | c :: rest => if isspace c then lstrip rest else s
  | [] => []
  end.

(** The digit scan of [int(str)] in base 10: decimal digits, single
    underscores only between two digits.  [prev_digit] tells whether the
    previous character was a digit; the result is the value, the number
    of digits read and the unread rest. *)
Fixpoint scan_digits (s : list ascii) (acc : Z) (ndigits : nat) (prev_digit : bool)
  : option (Z * nat * list ascii) :=
  match s with
  | [] => if prev_digit then Some (acc, ndigits, []) else None
  | c :: rest =>
      match digit_value c with
      | Some d => scan_digits rest (10 * acc + d) (S ndigits) true
      | None =>
          if is_underscore c then
            if prev_digit then scan_digits rest acc ndigits false else None
          else if prev_digit then Some (acc, ndigits, s) else None
      end
  end.

(** [sys.int_info.default_max_str_digits] *)
Definition max_str_digits : nat := 4300.

Definition int_of_chars (s : list ascii) : option Z :=
  let s := lstrip s in
  let '(negative, body) :=
    match s with
    | c :: rest =>
        if (N_of_ascii c =? 45)%N then (true, rest)
        else if (N_of_ascii c =? 43)%N then (false, rest)
        else (false, s)
    | [] => (false, s)
    end in
  match scan_digits body 0 0 false with
  | Some (v, n, rest) =>
      match lstrip rest with
      | [] => if Nat.leb n max_str_digits
              then Some (if negative then - v else v) else None
      | _ :: _ => None
      end
  | None => None
  end.

(** [str.isascii()] *)
Definition isascii (s : string) : bool :=
  forallb (fun c => (N_of_ascii c <? 128)%N) (list_ascii_of_string s).

(** [int(s)] for an ASCII string [s].  A string with a character outside
    ASCII is not read by this model: [int] accepts the decimal digits and
    the white space of every script. *)
Definition int (s : string) : result Z :=
  match int_of_chars (list_ascii_of_string s) with
  | Some z => Ok z
  | None => Raise (ValueError_int s)
  end.

(** [range(n)] *)
Definition range (n : nat) : list Z := map Z.of_nat (seq 0 n).

(** A [dict] with string keys, in insertion order. *)
Definition dict (V : Type) : Type := list (string * V).

Fixpoint dict_get {V : Type} (k : string) (d : dict V) : option V :=
  match d with
  | [] => None
  | (k', v) :: rest => if String.eqb k k' then Some v else dict_get k rest
  end.

(** [d[k] = v]: an existing key keeps its place, a new one goes last. *)
Fixpoint dict_set {V : Type} (k : string) (v : V) (d : dict V) : dict V :=
  match d with
  | [] => [(k, v)]
  | (k', v') :: rest =>
      if String.eqb k k' then (k, v) :: rest else (k', v') :: dict_set k v rest
  end.

(** [record[key]] on a field that may be absent. *)
Definition getitem {V : Type} (key : string) (field : option V) : result V :=
  match field with
  | Some v => Ok v
  | None => Raise (KeyError key)
  end.

End Py.

(** ** binary64 arithmetic *)

Module Float64.

Definition prec : Z := 53.
Definition emax : Z := 1024.

Definition float64 : Type := spec_float.

Definition zero : float64 := S754_zero false.
Definition nan : float64 := S754_nan.
Definition neg_infinity : float64 := S754_infinity true.

(** Conversion of an integer, rounding to nearest-even. *)
Definition of_int (z : Z) : float64 := binary_normalize prec emax z 0 false.

Definition div (x y : float64) : float64 := SFdiv prec emax x y.
Definition mul (x y : float64) : float64 := SFmul prec emax x y.

Definition isnan (x : float64) : bool :=
  match x with S754_nan => true | _ => false end.

(** [x >= y] *)
Definition ge (x y : float64) : bool := SFleb y x.

End Float64.

Import Float64.

(** ** Data model *)

(** A number stored in a Firestore document: an integer or a double. *)
Inductive number : Type :=
| PyInt (z : Z)
| PyFloat (f : float64).

(** The value a number takes in a float64 column or operand. *)
Definition to_float64 (n : number) : float64 :=
  match n with
  | PyInt z => of_int z
  | PyFloat f => f
  end.

(** The [historicalData] map of a lot document; [averageByHour] may be
    absent. *)
Record historical : Type := {
  averageByHour : option (Py.dict number)
}.

(** A lot document as [to_dict] returns it.  Every key may be absent. *)
Record lot : Type := {
  lot_name : option string;
  lot_capacity : option Z;
  lot_permit : option string;
  lot_count_now : option Z;
  lot_historicalData : option historical
}.

(** The value stored under a lot's name in [popular_times]. *)
Record summary : Type := {
  data : list float64;
  max_occupancy : float64;
  permit : string;
  current_occupancy : Z;
  capacity : Z
}.

(** ** pandas operations used by the script *)

Module Pandas.

(** A float64 [Series]: index labels with their values, in order. *)
Definition Series : Type := list (Z * float64).

(** [pd.Series(index=index, data=value)] *)
Definition Series_const (index : list Z) (value : float64) : Series :=
  map (fun label => (label, value)) index.

(** [other.index.is_unique] *)
Fixpoint is_unique (labels : list Z) : bool :=
  match labels with
  | [] => true
  | l :: rest => negb (existsb (Z.eqb l) rest) && is_unique rest
  end.

(** The value at a label of a series with unique labels. *)
Fixpoint loc (label : Z) (s : Series) : option float64 :=
  match s with
  | [] => None
  | (l, v) :: rest => if Z.eqb label l then Some v else loc label rest
  end.

(** [other.reindex_like(self)]: the values of [other] at the labels of
    [self], NaN where [other] has no such label; labels of [other] that
    [self] lacks are dropped.  Duplicate labels in [other] cannot be
    reindexed. *)
Definition reindex_like (other self : Series) : result Series :=
  if is_unique (map fst other) then
    Ok (map (fun '(label, _) =>
               (label, match loc label other with
                       | Some v => v
                       | None => nan
                       end)) self)
  else Raise ValueError_duplicate_labels.

(** [putmask] with the mask [notna(new)]: take the new value where it is
    not NaN.  Both series carry the same labels. *)
Fixpoint putmask_notna (self new : Series) : Series :=
  match self, new with
  | (label, old) :: self', (_, v) :: new' =>
      (label, if isnan v then old else v) :: putmask_notna self' new'
  | _, _ => self
  end.

(** [self.update(other)] *)
Definition update (self other : Series) : result Series :=
  other' <- reindex_like other self ;;
  Ok (putmask_notna self other').

(** [self.tolist()] *)
Definition tolist (s : Series) : list float64 := map snd s.

(** [np.maximum] on two scalars.  Of two values that compare equal, which
    can only be the two zeros, the model keeps the first; the reduction of
    NumPy may keep either, by the width of the vectors it was built for. *)
Definition maximum (a b : float64) : float64 :=
  if ge a b || isnan a then a else b.

(** [self.max()] with the default [skipna=True]: NaN for an empty or an
    all-NaN series, else the maximum with NaN entries read as [-inf]. *)
Definition max (s : Series) : float64 :=
  let values := tolist s in
  if forallb isnan values then nan
  else
    match map (fun v => if isnan v then neg_infinity else v) values with
    | [] => nan
    | v :: rest => fold_left maximum rest v
    end.

End Pandas.

(** ** The aggregation *)

(** [lot.get('historicalData', {}).get('averageByHour', {})] *)
Definition hourly_data_of (l : lot) : Py.dict number :=
  match lot_historicalData l with
  | None => []
  | Some h =>
      match averageByHour h with
      | None => []
      | Some m => m
      end
  end.

(** [(df['occupied'] / capacity) * 100], one entry of the column.  pandas
    evaluates the quotient of a numeric column by a scalar in binary64
    arithmetic: a zero divisor yields an infinity or NaN, never a
    [ZeroDivisionError]. *)
Definition occupancy_rate (occupied : number) (cap : Z) : float64 :=
  mul (div (to_float64 occupied) (of_int cap)) (of_int 100).

(** The rows [{"hour": int(hour), "occupied": count}] of [data_points]. *)
Definition data_points (hourly_data : Py.dict number) : result (list (Z * number)) :=
  comprehension (fun '(hour, count) => h <- Py.int hour ;; Ok (h, count)) hourly_data.

(** [df.set_index('hour')['occupancy_rate']] *)
Definition hourly_avg (cap : Z) (df : list (Z * number)) : Pandas.Series :=
  map (fun '(hour, occupied) => (hour, occupancy_rate occupied cap)) df.

(** [pd.Series(index=range(24), data=0.0)] *)
Definition full_hours : Pandas.Series := Pandas.Series_const (Py.range 24) zero.

(** The body of the loop over [lots_data], on one lot.  A [DataFrame]
    built from a list of rows is empty exactly when the list is. *)
Definition analyze_lot (l : lot) (popular_times : Py.dict summary)
  : result (Py.dict summary) :=
  name <- Py.getitem "name" (lot_name l) ;;
  cap <- Py.getitem "capacity" (lot_capacity l) ;;
  df <- data_points (hourly_data_of l) ;;
  match df with
  | [] => Ok popular_times
  | _ :: _ =>
      full <- Pandas.update full_hours (hourly_avg cap df) ;;
      let data := Pandas.tolist full in
      let max_occupancy := Pandas.max full in
      permit <- Py.getitem "permit" (lot_permit l) ;;
      count_now <- Py.getitem "count_now" (lot_count_now l) ;;
      Ok (Py.dict_set name
            {| data := data;
               max_occupancy := max_occupancy;
               permit := permit;
               current_occupancy := count_now;
               capacity := cap |}
            popular_times)
  end.

(** ** The run *)

(** What the run can observe and change outside itself: whether
    [src/data/popularTimes.json] can be opened for writing, and what the
    file holds ([None] while it does not exist).  The file's text is
    identified with the mapping [json.dump] serialises into it. *)
Record world : Type := {
  can_open : bool;
  file : option (Py.dict summary)
}.

(** [analyze_parking_data()], given the outcome of [get_firestore_data()].
    The file is opened only after the loop over the lots has ended. *)
Definition analyze_parking_data (fetched : result (list lot)) (w : world)
  : world * result (Py.dict summary) :=
  match (lots_data <- fetched ;; for_each analyze_lot lots_data []) with
  | Raise e => (w, Raise e)
  | Ok popular_times =>
      if can_open w then
        ({| can_open := true; file := Some popular_times |}, Ok popular_times)
      else (w, Raise (OSError "src/data/popularTimes.json"))
  end.

(** ** Sample documents *)

Definition North : lot := {|
  lot_name := Some "North";
  lot_capacity := Some 100;
  lot_permit := Some "Staff";
  lot_count_now := Some 42;
  lot_historicalData :=
    Some {| averageByHour := Some [("8", PyInt 50); ("12", PyInt 80)] |}
|}.

Definition North_summary : summary := {|
  data := [zero; zero; zero; zero; zero; zero; zero; zero; of_int 50;
           zero; zero; zero; of_int 80; zero; zero; zero; zero; zero;
           zero; zero; zero; zero; zero; zero];
  max_occupancy := of_int 80;
  permit := "Staff";
  current_occupancy := 42;
  capacity := 100
|}.

Definition fresh_world : world := {| can_open := true; file := None |}.

(** A lot of capacity 0 in which nothing was parked at 8. *)
Definition Idle : lot := {|
  lot_name := Some "Idle";
  lot_capacity := Some 0;
  lot_permit := Some "Staff";
  lot_count_now := Some 0;
  lot_historicalData := Some {| averageByHour := Some [("8", PyInt 0)] |}
|}.

Definition Idle_summary : summary := {|
  data := repeat zero 24;
  max_occupancy := zero;
  permit := "Staff";
  current_occupancy := 0;
  capacity := 0
|}.

(** A lot of capacity 0 with five cars at 8. *)
Definition Closed : lot := {|
  lot_name := Some "Closed";
  lot_capacity := Some 0;
  lot_permit := Some "Staff";
  lot_count_now := Some 5;
  lot_historicalData := Some {| averageByHour := Some [("8", PyInt 5)] |}
|}.

Definition Closed_summary : summary := {|
  data := repeat zero 8 ++ [S754_infinity false] ++ repeat zero 15;
  max_occupancy := S754_infinity false;
  permit := "Staff";
  current_occupancy := 5;
  capacity := 0
|}.

(** A complete lot whose [averageByHour] is empty. *)
Definition Quiet : lot := {|
  lot_name := Some "Quiet";
  lot_capacity := Some 10;
  lot_permit := Some "Student";
  lot_count_now := Some 3;
  lot_historicalData := Some {| averageByHour := Some [] |}
|}.

(** A lot with neither [permit], [count_now] nor [historicalData]. *)
Definition Bare : lot := {|
  lot_name := Some "Bare";
  lot_capacity := Some 10;
  lot_permit := None;
  lot_count_now := None;
  lot_historicalData := None
|}.

(** ** Reading a summary against its lot *)

(** The hours of a day, the labels of [full_hours]. *)
Definition in_day (h : Z) : bool := (0 <=? h) && (h <? 24).

(** What the slot of hour [h] holds once [full_hours] has been updated
    with [rates]: the rate stored at label [h] unless it is missing or
    NaN, else the initial 0.0. *)
Definition hour_slot (rates : Pandas.Series) (h : Z) : float64 :=
  match Pandas.loc h rates with
  | Some v => if isnan v then zero else v
  | None => zero
  end.

(** The dense series of a lot with capacity [cap] and rows [df]. *)
Definition dense (cap : Z) (df : list (Z * number)) : Pandas.Series :=
  map (fun h => (h, hour_slot (hourly_avg cap df) h)) (Py.range 24).

(** The summary the loop body stores for such a lot. *)
Definition summary_of (cap : Z) (df : list (Z * number)) (p : string) (c : Z)
  : summary :=
  {| data := Pandas.tolist (dense cap df);
     max_occupancy := Pandas.max (dense cap df);
     permit := p;
     current_occupancy := c;
     capacity := cap |}.

(** The rows whose hour is one of 0..23. *)
Definition day_rows (df : list (Z * number)) : list (Z * number) :=
  filter (fun row => in_day (fst row)) df.

(** ** Reading the mapping against the fetched lots *)

(** The keys of a [dict], in order. *)
Definition keys {V : Type} (d : Py.dict V) : list string := map fst d.

(** A key joins the keys it is new to at the end. *)
Definition add_key (ks : list string) (k : string) : list string :=
  if existsb (String.eqb k) ks then ks else ks ++ [k].

(** The names, in fetch order, of the lots that have at least one hourly
    entry. *)
Definition names_with_history (lots : list lot) : list string :=
  flat_map (fun l =>
              match hourly_data_of l, lot_name l with
              | _ :: _, Some name => [name]
              | _, _ => []
              end) lots.

(** [x < 0.0] *)
Definition below_zero (x : float64) : bool := SFltb x zero.

(** The sign bit of a number, [None] for NaN. *)
Definition sign_bit (x : float64) : option bool :=
  match x with
  | S754_zero s | S754_infinity s | S754_finite s _ _ => Some s
  | S754_nan => None
  end.

(** A lot of capacity 4 with one hour of the day and two outside it. *)
Definition Late : lot := {|
  lot_name := Some "Late";
  lot_capacity := Some 4;
  lot_permit := Some "Staff";
  lot_count_now := Some 1;
  lot_historicalData :=
    Some {| averageByHour := Some [("24", PyInt 4); ("7", PyInt 2); ("-1", PyInt 3)] |}
|}.

(** The lot Late with its hourly entries in another order. *)
Definition Late_reordered : lot := {|
  lot_name := Some "Late";
  lot_capacity := Some 4;
  lot_permit := Some "Staff";
  lot_count_now := Some 1;
  lot_historicalData :=
    Some {| averageByHour := Some [("7", PyInt 2); ("-1", PyInt 3); ("24", PyInt 4)] |}
|}.

(** A lot whose only hourly entries lie outside the day. *)
Definition Night : lot := {|
  lot_name := Some "Night";
  lot_capacity := Some 4;
  lot_permit := Some "Staff";
  lot_count_now := Some 1;
  lot_historicalData :=
    Some {| averageByHour := Some [("24", PyInt 4); ("-1", PyInt 3)] |}
|}.

(** A lot with two labels for hour 8. *)
Definition Twice : lot := {|
  lot_name := Some "Twice";
  lot_capacity := Some 4;
  lot_permit := Some "Staff";
  lot_count_now := Some 1;
  lot_historicalData :=
    Some {| averageByHour := Some [("8", PyInt 1); ("08", PyInt 2)] |}
|}.

(** A lot with a label that is no integer. *)
Definition Noon : lot := {|
  lot_name := Some "Noon";
  lot_capacity := Some 4;
  lot_permit := Some "Staff";
  lot_count_now := Some 1;
  lot_historicalData :=
    Some {| averageByHour := Some [("8", PyInt 1); ("noon", PyInt 2)] |}
|}.

(** A second document named North, with other figures. *)
Definition North_again : lot := {|
  lot_name := Some "North";
  lot_capacity := Some 4;
  lot_permit := Some "Visitor";
  lot_count_now := Some 2;
  lot_historicalData := Some {| averageByHour := Some [("7", PyInt 2)] |}
|}.

(** * Properties *)

(** ** Dictionaries *)

Lemma dict_get_set {V : Type} (k k' : string) (v : V) (d : Py.dict V) :
  Py.dict_get k (Py.dict_set k' v d) =
  if String.eqb k k' then Some v else Py.dict_get k d.
Proof.
  induction d as [| [k0 v0] d IH]; simpl.
  - reflexivity.
  - destruct (String.eqb k' k0) eqn:E'; simpl.
    + apply String.eqb_eq in E'; subst k0.
      destruct (String.eqb k k'); reflexivity.
    + destruct (String.eqb k k0) eqn:E0.
      * apply String.eqb_eq in E0; subst k0.
        rewrite String.eqb_sym, E'. reflexivity.
      * exact IH.
Qed.

(** ** Ranges *)

Lemma range_In (n : nat) (h : Z) :
  In h (Py.range n) <-> 0 <= h < Z.of_nat n.
Proof.
  unfold Py.range. rewrite in_map_iff. split.
  - intros [k [<- Hk]]. apply in_seq in Hk. lia.
  - intros Hh. exists (Z.to_nat h). split; [lia |].
    apply in_seq. lia.
Qed.

Lemma range_nth_error (n k : nat) :
  (k < n)%nat -> nth_error (Py.range n) k = Some (Z.of_nat k).
Proof.
  intros Hk. unfold Py.range.
  rewrite nth_error_map, nth_error_seq.
  destruct (Nat.ltb_spec k n); [reflexivity | lia].
Qed.

Lemma in_day_spec (h : Z) : in_day h = true <-> 0 <= h < 24.
Proof. unfold in_day. lia. Qed.

(** ** Rows and labels *)

Lemma comprehension_In {A B : Type} (f : A -> result B) (xs : list A) (ys : list B) :
  comprehension f xs = Ok ys ->
  forall x y, In x xs -> f x = Ok y -> In y ys.
Proof.
  revert ys. induction xs as [| a xs IH]; intros ys H x y Hin Hf.
  - contradiction.
  - simpl in H. destruct (f a) as [b |] eqn:Ea; [| discriminate].
    simpl in H. destruct (comprehension f xs) as [bs |]; [| discriminate].
    simpl in H. injection H as <-.
    destruct Hin as [-> | Hin].
    + left. congruence.
    + right. eapply IH; eauto.
Qed.

Lemma comprehension_length {A B : Type} (f : A -> result B) (xs : list A) (ys : list B) :
  comprehension f xs = Ok ys -> List.length ys = List.length xs.
Proof.
  revert ys. induction xs as [| a xs IH]; intros ys H; simpl in H.
  - injection H as <-. reflexivity.
  - destruct (f a); [| discriminate]. simpl in H.
    destruct (comprehension f xs); [| discriminate]. simpl in H.
    injection H as <-. simpl. f_equal. apply IH. reflexivity.
Qed.

Lemma data_points_In (m : Py.dict number) (df : list (Z * number)) :
  data_points m = Ok df ->
  forall hour count h, In (hour, count) m -> Py.int hour = Ok h -> In (h, count) df.
Proof.
  intros H hour count h Hin Hh.
  eapply (comprehension_In _ _ _ H (hour, count)); [exact Hin |].
  simpl. rewrite Hh. reflexivity.
Qed.

Lemma hourly_avg_labels (cap : Z) (df : list (Z * number)) :
  map fst (hourly_avg cap df) = map fst df.
Proof.
  unfold hourly_avg. rewrite map_map. apply map_ext. intros [h c]. reflexivity.
Qed.

Lemma existsb_label_In (h : Z) (labels : list Z) :
  existsb (Z.eqb h) labels = true <-> In h labels.
Proof.
  rewrite existsb_exists. split.
  - intros [x [Hx E]]. apply Z.eqb_eq in E. congruence.
  - intros Hin. exists h. split; [exact Hin | apply Z.eqb_refl].
Qed.

Lemma loc_unique_In (cap : Z) (df : list (Z * number)) (h : Z) (count : number) :
  Pandas.is_unique (map fst df) = true ->
  In (h, count) df ->
  Pandas.loc h (hourly_avg cap df) = Some (occupancy_rate count cap).
Proof.
  induction df as [| [h0 c0] df IH]; intros Hu Hin.
  - contradiction.
  - simpl in Hu. apply andb_true_iff in Hu as [Hfresh Hu].
    simpl. destruct Hin as [E | Hin].
    + injection E as -> ->. rewrite Z.eqb_refl. reflexivity.
    + destruct (Z.eqb_spec h h0) as [-> | _].
      * apply negb_true_iff in Hfresh.
        assert (Hl : In h0 (map fst df)) by (apply (in_map fst _ _ Hin)).
        apply existsb_label_In in Hl. congruence.
      * apply IH; assumption.
Qed.

Lemma loc_None (s : Pandas.Series) (h : Z) :
  ~ In h (map fst s) -> Pandas.loc h s = None.
Proof.
  induction s as [| [h0 v] s IH]; intros Hn; simpl.
  - reflexivity.
  - destruct (Z.eqb_spec h h0) as [-> | _].
    + exfalso. apply Hn. left. reflexivity.
    + apply IH. intros Hin. apply Hn. right. exact Hin.
Qed.

(** ** The update of [full_hours] in closed form *)

Lemma putmask_reindexed (index : list Z) (c : float64) (g : Z -> float64) :
  Pandas.putmask_notna
    (Pandas.Series_const index c)
    (map (fun '(label, _) => (label, g label)) (Pandas.Series_const index c)) =
  map (fun label => (label, if isnan (g label) then c else g label)) index.
Proof.
  unfold Pandas.Series_const.
  induction index as [| l index IH]; simpl.
  - reflexivity.
  - f_equal. exact IH.
Qed.

Lemma update_full_hours (other : Pandas.Series) :
  Pandas.update full_hours other =
  if Pandas.is_unique (map fst other)
  then Ok (map (fun h => (h, hour_slot other h)) (Py.range 24))
  else Raise ValueError_duplicate_labels.
Proof.
  unfold Pandas.update, Pandas.reindex_like.
  destruct (Pandas.is_unique (map fst other)); [| reflexivity].
  cbn [bind]. f_equal. unfold full_hours.
  rewrite (putmask_reindexed (Py.range 24) zero
             (fun label => match Pandas.loc label other with
                           | Some v => v
                           | None => nan
                           end)).
  apply map_ext. intros h. unfold hour_slot.
  destruct (Pandas.loc h other) as [v |]; reflexivity.
Qed.

(** ** The loop body, case by case *)

Lemma analyze_lot_Ok (l : lot) (pt pt' : Py.dict summary) :
  analyze_lot l pt = Ok pt' ->
  exists name cap df,
    lot_name l = Some name /\
    lot_capacity l = Some cap /\
    data_points (hourly_data_of l) = Ok df /\
    ((df = [] /\ pt' = pt) \/
     (df <> [] /\
      Pandas.is_unique (map fst df) = true /\
      exists p c,
        lot_permit l = Some p /\
        lot_count_now l = Some c /\
        pt' = Py.dict_set name (summary_of cap df p c) pt)).
Proof.
  unfold analyze_lot. intros H.
  destruct (lot_name l) as [name |]; [| discriminate].
  destruct (lot_capacity l) as [cap |]; [| discriminate].
  cbn [Py.getitem bind] in H.
  destruct (data_points (hourly_data_of l)) as [df |]; [| discriminate].
  cbn [bind] in H.
  exists name, cap, df. repeat split.
  destruct df as [| row df].
  - left. split; congruence.
  - right. split; [discriminate |].
    rewrite update_full_hours, hourly_avg_labels in H.
    destruct (Pandas.is_unique (map fst (row :: df))); [| discriminate].
    split; [reflexivity |].
    cbn [bind] in H.
    destruct (lot_permit l) as [p |]; [| discriminate].
    destruct (lot_count_now l) as [c |]; [| discriminate].
    cbn [Py.getitem bind] in H.
    exists p, c. repeat split.
    injection H as <-. reflexivity.
Qed.

(** Every entry of the mapping the loop ends with was already in the
    mapping it started from or is the summary of one of the lots. *)
Lemma for_each_provenance (lots : list lot) (acc pt : Py.dict summary)
      (name : string) (s : summary) :
  for_each analyze_lot lots acc = Ok pt ->
  Py.dict_get name pt = Some s ->
  Py.dict_get name acc = Some s \/
  exists l cap df p c,
    In l lots /\
    lot_name l = Some name /\
    lot_capacity l = Some cap /\
    data_points (hourly_data_of l) = Ok df /\
    df <> [] /\
    Pandas.is_unique (map fst df) = true /\
    lot_permit l = Some p /\
    lot_count_now l = Some c /\
    s = summary_of cap df p c.
Proof.
  revert acc. induction lots as [| l lots IH]; intros acc Hloop Hget.
  - simpl in Hloop. injection Hloop as <-. left. exact Hget.
  - simpl in Hloop.
    destruct (analyze_lot l acc) as [acc' |] eqn:Hbody; [| discriminate].
    cbn [bind] in Hloop.
    destruct (IH acc' Hloop Hget) as [Hacc' | (l' & cap & df & p & c & Hin & Hrest)].
    + apply analyze_lot_Ok in Hbody
        as (name' & cap & df & Hn & Hc & Hdf & [[_ ->] | (Hne & Hu & p & c & Hp & Hcn & ->)]).
      * left. exact Hacc'.
      * rewrite dict_get_set in Hacc'.
        destruct (String.eqb name name') eqn:E.
        -- apply String.eqb_eq in E. subst name'. injection Hacc' as <-.
           right. exists l, cap, df, p, c. repeat split; auto. left. reflexivity.
        -- left. exact Hacc'.
    + right. exists l', cap, df, p, c. split; [right; exact Hin | exact Hrest].
Qed.

(** Every entry of the mapping a run returns is the summary of a fetched
    lot of that name. *)
Lemma output_provenance (fetched : result (list lot)) (w : world)
      (pt : Py.dict summary) (name : string) (s : summary) :
  snd (analyze_parking_data fetched w) = Ok pt ->
  Py.dict_get name pt = Some s ->
  exists lots l cap df p c,
    fetched = Ok lots /\
    In l lots /\
    lot_name l = Some name /\
    lot_capacity l = Some cap /\
    data_points (hourly_data_of l) = Ok df /\
    df <> [] /\
    Pandas.is_unique (map fst df) = true /\
    lot_permit l = Some p /\
    lot_count_now l = Some c /\
    s = summary_of cap df p c.
Proof.
  unfold analyze_parking_data. intros Hrun Hget.
  destruct fetched as [lots |]; [| discriminate].
  cbn [bind] in Hrun.
  destruct (for_each analyze_lot lots []) as [pt0 |] eqn:Hloop; [| discriminate].
  destruct (can_open w); [| discriminate].
  simpl in Hrun. injection Hrun as ->.
  destruct (for_each_provenance _ _ _ _ _ Hloop Hget)
    as [Hnil | (l & cap & df & p & c & Hrest)].
  - discriminate.
  - exists lots, l, cap, df, p, c. split; [reflexivity | exact Hrest].
Qed.

Lemma dense_data_nth (cap : Z) (df : list (Z * number)) (h : Z) :
  0 <= h < 24 ->
  nth_error (Pandas.tolist (dense cap df)) (Z.to_nat h) =
  Some (hour_slot (hourly_avg cap df) h).
Proof.
  intros Hh. unfold Pandas.tolist, dense.
  rewrite map_map. cbn [snd].
  rewrite nth_error_map, range_nth_error by lia.
  cbn. f_equal. f_equal. lia.
Qed.




(** C8: a run either returns its mapping and leaves exactly that mapping in
    the output file, or raises and leaves the world as it found it: a failed
    fetch or a lot that raises during aggregation writes nothing. *)
Theorem output_all_or_nothing (fetched : result (list lot)) (w : world) :
  match analyze_parking_data fetched w with
  | (w', Ok popular_times) =>
      file w' = Some popular_times /\
      exists lots_data, fetched = Ok lots_data /\
        for_each analyze_lot lots_data [] = Ok popular_times
  | (w', Raise e) => w' = w
  end.
Proof.
  unfold analyze_parking_data.
  destruct fetched as [lots_data | e]; simpl.
  - destruct (for_each analyze_lot lots_data []) as [pt | e] eqn:Hloop.
    + destruct (can_open w); simpl.
      * split; [reflexivity | eauto].
      * reflexivity.
    + reflexivity.
  - reflexivity.
Qed.

Lemma comprehension_In_inv {A B : Type} (f : A -> result B) (xs : list A) (ys : list B) :
  comprehension f xs = Ok ys ->
  forall y, In y ys -> exists x, In x xs /\ f x = Ok y.
Proof.
  revert ys. induction xs as [| a xs IH]; intros ys H y Hin; simpl in H.
  - injection H as <-. contradiction.
  - destruct (f a) as [b |] eqn:Ea; [| discriminate]. simpl in H.
    destruct (comprehension f xs) as [bs |]; [| discriminate]. simpl in H.
    injection H as <-.
    destruct Hin as [<- | Hin].
    + exists a. split; [left; reflexivity | exact Ea].
    + destruct (IH bs eq_refl y Hin) as [x [Hx Hf]].
      exists x. split; [right; exact Hx | exact Hf].
Qed.

Lemma data_points_In_inv (m : Py.dict number) (df : list (Z * number)) :
  data_points m = Ok df ->
  forall h count, In (h, count) df ->
  exists hour, In (hour, count) m /\ Py.int hour = Ok h.
Proof.
  intros H h count Hin.
  destruct (comprehension_In_inv _ _ _ H _ Hin) as [[hour count'] [Hm Hf]].
  simpl in Hf. destruct (Py.int hour) as [h' |] eqn:Eh; [| discriminate].
  simpl in Hf. injection Hf as -> ->.
  exists hour. split; [exact Hm | exact Eh].
Qed.

(** ** The order of binary64 on numbers *)

Lemma compare_cont_Eq (p q : positive) : Pos.compare_cont Eq p q = Pos.compare p q.
Proof. reflexivity. Qed.

Ltac order_cases :=
  repeat match goal with
         | H : context [Pos.compare_cont Eq ?p ?q] |- _ =>
             rewrite (compare_cont_Eq p q) in H;
             destruct (Pos.compare_spec p q); cbn in H
         | |- context [Pos.compare_cont Eq ?p ?q] =>
             rewrite (compare_cont_Eq p q);
             destruct (Pos.compare_spec p q); cbn
         | H : context [Z.compare ?a ?b] |- _ =>
             destruct (Z.compare_spec a b); cbn in H
         | |- context [Z.compare ?a ?b] =>
             destruct (Z.compare_spec a b); cbn
         end;
  try discriminate; try reflexivity; try lia.

Lemma ge_total (x y : float64) :
  isnan x = false -> isnan y = false -> ge x y = false -> ge y x = true.
Proof.
  unfold ge, SFleb, SFcompare.
  destruct x as [[] | [] | | [] m1 e1], y as [[] | [] | | [] m2 e2]; cbn;
    intros Hx Hy H; try discriminate; try reflexivity.
  all: order_cases.
Qed.

Lemma ge_refl (x : float64) : isnan x = false -> ge x x = true.
Proof.
  intros Hx. destruct (ge x x) eqn:E; [reflexivity |].
  rewrite <- E. apply ge_total; assumption.
Qed.

Lemma ge_trans (x y z : float64) :
  ge x y = true -> ge y z = true -> ge x z = true.
Proof.
  unfold ge, SFleb, SFcompare.
  destruct x as [[] | [] | | [] m1 e1], y as [[] | [] | | [] m2 e2],
           z as [[] | [] | | [] m3 e3]; cbn;
    intros H1 H2; try discriminate; try reflexivity.
  all: order_cases.
Qed.

(** ** The maximum of a series without NaN *)

Lemma maximum_cases (a b : float64) :
  isnan a = false -> isnan b = false ->
  (Pandas.maximum a b = a \/ Pandas.maximum a b = b) /\
  ge (Pandas.maximum a b) a = true /\
  ge (Pandas.maximum a b) b = true.
Proof.
  intros Ha Hb. unfold Pandas.maximum. rewrite Ha, orb_false_r.
  destruct (ge a b) eqn:E.
  - repeat split; auto using ge_refl.
  - repeat split; auto using ge_refl, ge_total.
Qed.

Lemma fold_maximum (rest : list float64) (v : float64) :
  (forall x, In x (v :: rest) -> isnan x = false) ->
  In (fold_left Pandas.maximum rest v) (v :: rest) /\
  forall x, In x (v :: rest) -> ge (fold_left Pandas.maximum rest v) x = true.
Proof.
  revert v. induction rest as [| a rest IH]; intros v Hnan.
  - simpl. split; [left; reflexivity |].
    intros x [<- | []]. apply ge_refl, Hnan. left. reflexivity.
  - assert (Hv : isnan v = false) by (apply Hnan; left; reflexivity).
    assert (Ha : isnan a = false) by (apply Hnan; right; left; reflexivity).
    destruct (maximum_cases v a Hv Ha) as [Hpick [Hgv Hga]].
    cbn [fold_left].
    destruct (IH (Pandas.maximum v a)) as [Hin Hge].
    { intros x [<- | Hx].
      - destruct Hpick as [-> | ->]; assumption.
      - apply Hnan. right. right. exact Hx. }
    split.
    + destruct Hin as [E | Hin].
      * rewrite <- E. destruct Hpick as [-> | ->]; [left | right; left]; reflexivity.
      * right. right. exact Hin.
    + assert (Hm : ge (fold_left Pandas.maximum rest (Pandas.maximum v a))
                      (Pandas.maximum v a) = true)
        by (apply Hge; left; reflexivity).
      intros x [<- | [<- | Hx]].
      * eapply ge_trans; eassumption.
      * eapply ge_trans; eassumption.
      * apply Hge. right. exact Hx.
Qed.

Lemma max_without_nan (s : Pandas.Series) :
  s <> [] ->
  (forall v, In v (Pandas.tolist s) -> isnan v = false) ->
  In (Pandas.max s) (Pandas.tolist s) /\
  forall v, In v (Pandas.tolist s) -> ge (Pandas.max s) v = true.
Proof.
  intros Hne Hnan. unfold Pandas.max.
  assert (Hid : map (fun v => if isnan v then neg_infinity else v) (Pandas.tolist s)
                = Pandas.tolist s).
  { rewrite <- (map_id (Pandas.tolist s)) at 2.
    apply map_ext_in. intros v Hv. rewrite (Hnan v Hv). reflexivity. }
  rewrite Hid.
  destruct (Pandas.tolist s) as [| v rest] eqn:Evals.
  - destruct s; [contradiction | discriminate].
  - assert (Hv : isnan v = false) by (apply Hnan; left; reflexivity).
    cbn [forallb]. rewrite Hv. cbn [andb].
    apply fold_maximum. exact Hnan.
Qed.

Lemma hour_slot_not_nan (rates : Pandas.Series) (h : Z) :
  isnan (hour_slot rates h) = false.
Proof.
  unfold hour_slot. destruct (Pandas.loc h rates) as [v |]; [| reflexivity].
  destruct (isnan v) eqn:E; [reflexivity | exact E].
Qed.

Lemma dense_without_nan (cap : Z) (df : list (Z * number)) (v : float64) :
  In v (Pandas.tolist (dense cap df)) -> isnan v = false.
Proof.
  unfold Pandas.tolist, dense. rewrite map_map. cbn [snd].
  intros Hin. apply in_map_iff in Hin as [h [<- _]].
  apply hour_slot_not_nan.
Qed.

Lemma dense_length (cap : Z) (df : list (Z * number)) :
  List.length (Pandas.tolist (dense cap df)) = 24%nat.
Proof.
  unfold Pandas.tolist, dense, Py.range. rewrite !length_map, length_seq. reflexivity.
Qed.

(** ** The claims on the summaries *)

(** C2: the data of every summary in the mapping a run returns has exactly
    24 entries, whatever hours its lot had: it is the ascending list of the
    hours 0..23 with each hour replaced by the slot of that hour. *)
Theorem data_has_24_entries (fetched : result (list lot)) (w : world)
        (pt : Py.dict summary) (name : string) (s : summary) :
  snd (analyze_parking_data fetched w) = Ok pt ->
  Py.dict_get name pt = Some s ->
  List.length (data s) = 24%nat /\
  exists lots l cap df,
    fetched = Ok lots /\ In l lots /\ lot_name l = Some name /\
    lot_capacity l = Some cap /\
    data_points (hourly_data_of l) = Ok df /\
    data s = map (hour_slot (hourly_avg cap df)) (Py.range 24).
Proof.
  intros Hrun Hget.
  destruct (output_provenance _ _ _ _ _ Hrun Hget)
    as (lots & l & cap & df & p & c & Hf & Hin & Hn & Hc & Hdf & _ & _ & _ & _ & ->).
  split.
  - apply dense_length.
  - exists lots, l, cap, df.
    repeat (split; [assumption |]).
    cbn [summary_of data]. unfold Pandas.tolist, dense.
    rewrite map_map. reflexivity.
Qed.

Lemma data_has_24_entries_witness :
  snd (analyze_parking_data (Ok [North]) fresh_world) = Ok [("North", North_summary)] /\
  Py.dict_get "North" [("North", North_summary)] = Some North_summary /\
  List.length (data North_summary) = 24%nat.
Proof.
  split; [vm_compute; reflexivity |].
  split; [reflexivity |].
  apply (data_has_24_entries (Ok [North]) fresh_world
           [("North", North_summary)] "North" North_summary);
    vm_compute; reflexivity.
Defined.

(** C1, as stated, fails on a rate that is NaN: the lot Idle has capacity 0
    and count 0 at hour 8, its rate there is NaN, yet the summary of the run
    holds 0.0 at hour 8. *)
Lemma nan_rate_is_not_stored :
  snd (analyze_parking_data (Ok [Idle]) fresh_world) = Ok [("Idle", Idle_summary)] /\
  In ("8", PyInt 0) (hourly_data_of Idle) /\
  Py.int "8" = Ok 8 /\
  lot_capacity Idle = Some 0 /\
  nth_error (data Idle_summary) 8 = Some zero /\
  occupancy_rate (PyInt 0) 0 = nan /\
  nth_error (data Idle_summary) 8 <> Some (occupancy_rate (PyInt 0) 0).
Proof.
  repeat split; try (vm_compute; reflexivity).
  - left. reflexivity.
  - vm_compute. discriminate.
Qed.

(** C1 (amended): every summary in the mapping a run returns is that of a
    fetched lot of its name, and for every entry of the lot's averageByHour
    whose label reads as an hour h in 0..23, data[h] is exactly
    (occupied / capacity) * 100, unrounded, unless that value is NaN, in
    which case data[h] is 0.0. *)
Theorem rate_stored_at_present_hour (fetched : result (list lot)) (w : world)
        (pt : Py.dict summary) (name : string) (s : summary) :
  snd (analyze_parking_data fetched w) = Ok pt ->
  Py.dict_get name pt = Some s ->
  exists lots l cap,
    fetched = Ok lots /\ In l lots /\ lot_name l = Some name /\
    lot_capacity l = Some cap /\
    forall hour count h,
      In (hour, count) (hourly_data_of l) ->
      Py.int hour = Ok h ->
      0 <= h < 24 ->
      nth_error (data s) (Z.to_nat h) =
      Some (if isnan (occupancy_rate count cap) then zero
            else occupancy_rate count cap).
Proof.
  intros Hrun Hget.
  destruct (output_provenance _ _ _ _ _ Hrun Hget)
    as (lots & l & cap & df & p & c & Hf & Hin & Hn & Hc & Hdf & _ & Hu & _ & _ & ->).
  exists lots, l, cap. repeat (split; [assumption |]).
  intros hour count h Hm Hh Hday.
  cbn [summary_of data]. rewrite dense_data_nth by exact Hday.
  unfold hour_slot.
  rewrite (loc_unique_In cap df h count Hu (data_points_In _ _ Hdf _ _ _ Hm Hh)).
  reflexivity.
Qed.

Lemma rate_stored_at_present_hour_witness :
  snd (analyze_parking_data (Ok [North]) fresh_world) = Ok [("North", North_summary)] /\
  Py.dict_get "North" [("North", North_summary)] = Some North_summary /\
  exists lots l cap,
    Ok [North] = Ok lots /\ In l lots /\ lot_name l = Some "North" /\
    lot_capacity l = Some cap /\
    forall hour count h,
      In (hour, count) (hourly_data_of l) ->
      Py.int hour = Ok h ->
      0 <= h < 24 ->
      nth_error (data North_summary) (Z.to_nat h) =
      Some (if isnan (occupancy_rate count cap) then zero
            else occupancy_rate count cap).
Proof.
  split; [vm_compute; reflexivity |].
  split; [reflexivity |].
  apply (rate_stored_at_present_hour (Ok [North]) fresh_world
           [("North", North_summary)] "North" North_summary);
    vm_compute; reflexivity.
Defined.

(** C3: in every summary of the mapping a run returns, max_occupancy is one
    of the 24 entries of data and is greater than or equal to each of them;
    it is 0.0 when the lot has no entry for any hour in 0..23. *)
Theorem max_occupancy_is_maximum (fetched : result (list lot)) (w : world)
        (pt : Py.dict summary) (name : string) (s : summary) :
  snd (analyze_parking_data fetched w) = Ok pt ->
  Py.dict_get name pt = Some s ->
  In (max_occupancy s) (data s) /\
  (forall v, In v (data s) -> ge (max_occupancy s) v = true) /\
  exists lots l,
    fetched = Ok lots /\ In l lots /\ lot_name l = Some name /\
    ((forall hour count h,
         In (hour, count) (hourly_data_of l) -> Py.int hour = Ok h ->
         in_day h = false) ->
     max_occupancy s = zero).
Proof.
  intros Hrun Hget.
  destruct (output_provenance _ _ _ _ _ Hrun Hget)
    as (lots & l & cap & df & p & c & Hf & Hin & Hn & Hc & Hdf & _ & _ & _ & _ & ->).
  cbn [summary_of data max_occupancy].
  assert (Hmax : In (Pandas.max (dense cap df)) (Pandas.tolist (dense cap df)) /\
                 forall v, In v (Pandas.tolist (dense cap df)) ->
                           ge (Pandas.max (dense cap df)) v = true).
  { apply max_without_nan.
    - discriminate.
    - apply dense_without_nan. }
  destruct Hmax as [Hmem Hge].
  split; [exact Hmem |]. split; [exact Hge |].
  exists lots, l. repeat (split; [assumption |]).
  intros Hout.
  remember (Pandas.max (dense cap df)) as m eqn:Em. clear Em Hge.
  unfold Pandas.tolist, dense in Hmem. rewrite map_map in Hmem. cbn [snd] in Hmem.
  apply in_map_iff in Hmem as [h [Hslot Hh]].
  rewrite <- Hslot. unfold hour_slot.
  rewrite loc_None; [reflexivity |].
  rewrite hourly_avg_labels. intros Hlabel.
  apply in_map_iff in Hlabel as [[h' count] [E Hrow]]. cbn in E. subst h'.
  destruct (data_points_In_inv _ _ Hdf _ _ Hrow) as [hour [Hm Hparse]].
  apply range_In in Hh.
  assert (Hday : in_day h = true) by (apply in_day_spec; lia).
  rewrite (Hout hour count h Hm Hparse) in Hday. discriminate.
Qed.

Lemma max_occupancy_is_maximum_witness :
  snd (analyze_parking_data (Ok [North]) fresh_world) = Ok [("North", North_summary)] /\
  Py.dict_get "North" [("North", North_summary)] = Some North_summary /\
  In (max_occupancy North_summary) (data North_summary) /\
  (forall v, In v (data North_summary) -> ge (max_occupancy North_summary) v = true).
Proof.
  split; [vm_compute; reflexivity |].
  split; [reflexivity |].
  assert (H := max_occupancy_is_maximum (Ok [North]) fresh_world
                 [("North", North_summary)] "North" North_summary).
  destruct H as [Hmem [Hge _]]; [vm_compute; reflexivity | reflexivity |].
  split; [exact Hmem | exact Hge].
Defined.

(** ** Lots that are skipped, lots that raise *)

Lemma data_points_nil (m : Py.dict number) (df : list (Z * number)) :
  data_points m = Ok df -> (df = [] <-> m = []).
Proof.
  intros H. apply comprehension_length in H.
  destruct df, m; simpl in H; split; intros E; try reflexivity; try discriminate.
Qed.

Lemma analyze_lot_no_history (l : lot) (name : string) (cap : Z)
      (pt : Py.dict summary) :
  lot_name l = Some name ->
  lot_capacity l = Some cap ->
  hourly_data_of l = [] ->
  analyze_lot l pt = Ok pt.
Proof.
  intros Hn Hc Hm. unfold analyze_lot. rewrite Hn, Hc, Hm. reflexivity.
Qed.

Lemma analyze_lot_summarised (l : lot) (name : string) (cap : Z)
      (df : list (Z * number)) (p : string) (c : Z) (pt : Py.dict summary) :
  lot_name l = Some name ->
  lot_capacity l = Some cap ->
  data_points (hourly_data_of l) = Ok df ->
  df <> [] ->
  Pandas.is_unique (map fst df) = true ->
  lot_permit l = Some p ->
  lot_count_now l = Some c ->
  analyze_lot l pt = Ok (Py.dict_set name (summary_of cap df p c) pt).
Proof.
  intros Hn Hc Hdf Hne Hu Hp Hcn. unfold analyze_lot.
  rewrite Hn, Hc, Hdf. cbn [Py.getitem bind].
  destruct df as [| row df]; [contradiction |].
  rewrite update_full_hours, hourly_avg_labels, Hu, Hp, Hcn.
  reflexivity.
Qed.

Lemma analyze_lot_raises (l : lot) :
  lot_name l = None \/ lot_capacity l = None \/
  (hourly_data_of l <> [] /\ (lot_permit l = None \/ lot_count_now l = None)) ->
  forall pt, exists e, analyze_lot l pt = Raise e.
Proof.
  intros Hbad pt. unfold analyze_lot.
  destruct (lot_name l) as [name |]; [| eexists; reflexivity].
  destruct (lot_capacity l) as [cap |]; [| eexists; reflexivity].
  cbn [Py.getitem bind].
  destruct Hbad as [E | [E | [Hne Hmissing]]]; try discriminate.
  destruct (data_points (hourly_data_of l)) as [df |] eqn:Hdf; [| eexists; reflexivity].
  cbn [bind].
  destruct df as [| row df].
  - exfalso. apply Hne. apply (data_points_nil _ _ Hdf). reflexivity.
  - destruct (Pandas.update full_hours (hourly_avg cap (row :: df)));
      [| eexists; reflexivity].
    cbn [bind].
    destruct (lot_permit l) as [p |]; [| eexists; reflexivity].
    destruct (lot_count_now l) as [c |]; [| eexists; reflexivity].
    destruct Hmissing; discriminate.
Qed.

Lemma for_each_raises {A S : Type} (body : A -> S -> result S) (xs : list A) (x : A) :
  In x xs ->
  (forall acc, exists e, body x acc = Raise e) ->
  forall acc, exists e, for_each body xs acc = Raise e.
Proof.
  intros Hin Hbody. induction xs as [| a xs IH]; intros acc.
  - contradiction.
  - simpl. destruct (body a acc) as [acc' |] eqn:Ea.
    + cbn [bind]. destruct Hin as [-> | Hin].
      * destruct (Hbody acc) as [e He]. congruence.
      * apply (IH Hin).
    + eexists. reflexivity.
Qed.

(** C4, as stated, fails: the lot Quiet has every required field and an
    empty averageByHour, and the run over it returns and writes the empty
    mapping, with no summary under its name. *)
Lemma lot_without_history_has_no_summary :
  hourly_data_of Quiet = [] /\
  analyze_parking_data (Ok [Quiet]) fresh_world =
    ({| can_open := true; file := Some [] |}, Ok []) /\
  Py.dict_get "Quiet" (@nil (string * summary)) = None.
Proof. repeat split. Qed.

(** C4 (amended): a lot with a name and a capacity whose averageByHour is
    absent or empty produces no summary: the loop body leaves the mapping
    as it was, without raising; and the mapping a run returns has no entry
    under a name all of whose lots have no hourly entry. *)
Theorem lot_without_history_is_skipped (l : lot) (name : string) (cap : Z) :
  lot_name l = Some name ->
  lot_capacity l = Some cap ->
  hourly_data_of l = [] ->
  (forall pt, analyze_lot l pt = Ok pt) /\
  (forall lots w pt,
      snd (analyze_parking_data (Ok lots) w) = Ok pt ->
      (forall l', In l' lots -> lot_name l' = Some name -> hourly_data_of l' = []) ->
      Py.dict_get name pt = None).
Proof.
  intros Hn Hc Hm. split.
  - intros pt. eapply analyze_lot_no_history; eassumption.
  - intros lots w pt Hrun Hall.
    destruct (Py.dict_get name pt) as [s |] eqn:Hget; [| reflexivity].
    destruct (output_provenance _ _ _ _ _ Hrun Hget)
      as (lots' & l' & cap' & df & p & c & Hf & Hin & Hn' & _ & Hdf & Hne & _).
    injection Hf as <-.
    exfalso. apply Hne. apply (data_points_nil _ _ Hdf).
    apply Hall; assumption.
Qed.

Lemma lot_without_history_is_skipped_witness :
  lot_name Quiet = Some "Quiet" /\
  lot_capacity Quiet = Some 10 /\
  hourly_data_of Quiet = [] /\
  (forall pt, analyze_lot Quiet pt = Ok pt).
Proof.
  repeat (split; [reflexivity |]).
  apply (lot_without_history_is_skipped Quiet "Quiet" 10); reflexivity.
Defined.

(** C7, as stated, fails: the lot Bare lacks permit and count_now (and has
    no historicalData), and the run over it completes with the empty
    mapping. *)
Lemma missing_permit_is_tolerated :
  lot_permit Bare = None /\
  lot_count_now Bare = None /\
  analyze_parking_data (Ok [Bare]) fresh_world =
    ({| can_open := true; file := Some [] |}, Ok []).
Proof. repeat split. Qed.

(** C7 (amended): a run raises, and leaves the world untouched, when a
    fetched lot lacks name or capacity, or lacks permit or count_now while
    its averageByHour has at least one entry; a lot that has a name and a
    capacity and no hourly entry is passed over without raising, whether or
    not it has permit and count_now. *)
Theorem missing_field_is_fatal (lots : list lot) (w : world) (l : lot) :
  In l lots ->
  lot_name l = None \/ lot_capacity l = None \/
  (hourly_data_of l <> [] /\ (lot_permit l = None \/ lot_count_now l = None)) ->
  (exists e, analyze_parking_data (Ok lots) w = (w, Raise e)) /\
  (forall l' name cap pt,
      lot_name l' = Some name -> lot_capacity l' = Some cap ->
      hourly_data_of l' = [] -> analyze_lot l' pt = Ok pt).
Proof.
  intros Hin Hbad. split.
  - unfold analyze_parking_data. cbn [bind].
    destruct (for_each_raises analyze_lot lots l Hin (analyze_lot_raises l Hbad) [])
      as [e He].
    rewrite He. exists e. reflexivity.
  - intros l' name cap pt. apply analyze_lot_no_history.
Qed.

Lemma missing_field_is_fatal_witness :
  In {| lot_name := None; lot_capacity := Some 10; lot_permit := Some "Staff";
        lot_count_now := Some 1; lot_historicalData := None |}
     [North; {| lot_name := None; lot_capacity := Some 10; lot_permit := Some "Staff";
                lot_count_now := Some 1; lot_historicalData := None |}] /\
  exists e,
    analyze_parking_data
      (Ok [North; {| lot_name := None; lot_capacity := Some 10;
                     lot_permit := Some "Staff"; lot_count_now := Some 1;
                     lot_historicalData := None |}]) fresh_world
    = (fresh_world, Raise e).
Proof.
  split; [right; left; reflexivity |].
  apply (missing_field_is_fatal _ fresh_world
           {| lot_name := None; lot_capacity := Some 10; lot_permit := Some "Staff";
              lot_count_now := Some 1; lot_historicalData := None |}).
  - right. left. reflexivity.
  - left. reflexivity.
Defined.

(** ** Capacity zero *)

Lemma rate_at_zero_capacity (count : number) :
  occupancy_rate count 0 =
  match to_float64 count with
  | S754_finite sign _ _ | S754_infinity sign => S754_infinity sign
  | S754_zero _ | S754_nan => nan
  end.
Proof.
  unfold occupancy_rate.
  destruct (to_float64 count) as [[] | [] | | [] m e]; reflexivity.
Qed.

(** C6, as stated, fails: the lot Closed has capacity 0 and five cars at
    hour 8; the run over it neither raises nor leaves it out, it returns and
    writes a summary whose rate at hour 8 is +infinity. *)
Lemma zero_capacity_is_divided_and_emitted :
  lot_capacity Closed = Some 0 /\
  hourly_data_of Closed = [("8", PyInt 5)] /\
  analyze_parking_data (Ok [Closed]) fresh_world =
    ({| can_open := true; file := Some [("Closed", Closed_summary)] |},
     Ok [("Closed", Closed_summary)]) /\
  nth_error (data Closed_summary) 8 = Some (S754_infinity false).
Proof. repeat split; vm_compute; reflexivity. Qed.

(** C6 (amended): capacity 0 is not guarded.  For a lot with capacity 0 and
    at least one hour, whose labels read as distinct integers and which has
    permit and count_now, the loop body raises nothing and stores a summary
    under the lot's name, with capacity 0; the division is carried out in
    binary64, so that at every present hour h in 0..23 data[h] is the
    infinity of the sign of the count, or 0.0 when the count is zero or
    NaN. *)
Theorem zero_capacity_lot_is_summarised (l : lot) (name : string)
        (df : list (Z * number)) (p : string) (c : Z) (pt : Py.dict summary) :
  lot_name l = Some name ->
  lot_capacity l = Some 0 ->
  data_points (hourly_data_of l) = Ok df ->
  df <> [] ->
  Pandas.is_unique (map fst df) = true ->
  lot_permit l = Some p ->
  lot_count_now l = Some c ->
  exists s,
    analyze_lot l pt = Ok (Py.dict_set name s pt) /\
    capacity s = 0 /\
    forall hour count h,
      In (hour, count) (hourly_data_of l) ->
      Py.int hour = Ok h ->
      0 <= h < 24 ->
      nth_error (data s) (Z.to_nat h) =
      Some match to_float64 count with
           | S754_finite sign _ _ | S754_infinity sign => S754_infinity sign
           | S754_zero _ | S754_nan => zero
           end.
Proof.
  intros Hn Hc Hdf Hne Hu Hp Hcn.
  exists (summary_of 0 df p c). split; [| split].
  - apply analyze_lot_summarised; assumption.
  - reflexivity.
  - intros hour count h Hm Hh Hday.
    cbn [summary_of data]. rewrite dense_data_nth by exact Hday.
    unfold hour_slot.
    rewrite (loc_unique_In 0 df h count Hu (data_points_In _ _ Hdf _ _ _ Hm Hh)).
    rewrite rate_at_zero_capacity.
    destruct (to_float64 count) as [[] | [] | | [] m e]; reflexivity.
Qed.

Lemma zero_capacity_lot_is_summarised_witness :
  lot_name Closed = Some "Closed" /\
  lot_capacity Closed = Some 0 /\
  data_points (hourly_data_of Closed) = Ok [(8, PyInt 5)] /\
  [(8, PyInt 5)] <> [] /\
  Pandas.is_unique (map fst [(8, PyInt 5)]) = true /\
  lot_permit Closed = Some "Staff" /\
  lot_count_now Closed = Some 5 /\
  exists s,
    analyze_lot Closed [] = Ok (Py.dict_set "Closed" s []) /\
    capacity s = 0 /\
    forall hour count h,
      In (hour, count) (hourly_data_of Closed) ->
      Py.int hour = Ok h ->
      0 <= h < 24 ->
      nth_error (data s) (Z.to_nat h) =
      Some match to_float64 count with
           | S754_finite sign _ _ | S754_infinity sign => S754_infinity sign
           | S754_zero _ | S754_nan => zero
           end.
Proof.
  repeat (split; [first [reflexivity | discriminate] |]).
  apply (zero_capacity_lot_is_summarised Closed "Closed" [(8, PyInt 5)] "Staff" 5 []);
    first [reflexivity | discriminate].
Defined.

(** ** Hours outside the day *)

Lemma day_rows_unique (df : list (Z * number)) :
  Pandas.is_unique (map fst df) = true ->
  Pandas.is_unique (map fst (day_rows df)) = true.
Proof.
  induction df as [| [h c] df IH]; intros Hu.
  - reflexivity.
  - simpl in Hu. apply andb_true_iff in Hu as [Hfresh Hu].
    unfold day_rows. cbn [filter fst]. fold (day_rows df).
    destruct (in_day h); [| apply IH; exact Hu].
    cbn [map fst Pandas.is_unique]. rewrite (IH Hu), andb_true_r.
    apply negb_true_iff. apply negb_true_iff in Hfresh.
    destruct (existsb (Z.eqb h) (map fst (day_rows df))) eqn:E; [| reflexivity].
    apply existsb_label_In in E. apply in_map_iff in E as [[h' c'] [Eh Hrow]].
    cbn in Eh. subst h'. apply filter_In in Hrow as [Hrow _].
    rewrite <- Hfresh. symmetry. apply existsb_label_In.
    apply (in_map fst _ _ Hrow).
Qed.

Lemma loc_day_rows (cap : Z) (df : list (Z * number)) (h : Z) :
  in_day h = true ->
  Pandas.loc h (hourly_avg cap (day_rows df)) = Pandas.loc h (hourly_avg cap df).
Proof.
  intros Hday. unfold hourly_avg, day_rows.
  induction df as [| [h0 c0] df IH].
  - reflexivity.
  - cbn [filter fst].
    destruct (in_day h0) eqn:E0; cbn [map Pandas.loc].
    + rewrite IH. reflexivity.
    + rewrite IH. destruct (Z.eqb_spec h h0) as [-> | _]; [congruence | reflexivity].
Qed.

Lemma dense_day_rows (cap : Z) (df : list (Z * number)) :
  dense cap (day_rows df) = dense cap df.
Proof.
  unfold dense. apply map_ext_in. intros h Hh.
  apply range_In in Hh. unfold hour_slot.
  rewrite loc_day_rows by (apply in_day_spec; lia). reflexivity.
Qed.

(** C10: in every summary of the mapping a run returns, the entries of the
    lot whose label reads as an integer outside 0..23 leave no trace: data
    still has 24 entries, and data and max_occupancy are exactly what the
    update of the zero series yields from the rows of the hours 0..23
    alone. *)
Theorem out_of_day_hours_are_ignored (fetched : result (list lot)) (w : world)
        (pt : Py.dict summary) (name : string) (s : summary) :
  snd (analyze_parking_data fetched w) = Ok pt ->
  Py.dict_get name pt = Some s ->
  exists lots l cap df full,
    fetched = Ok lots /\ In l lots /\ lot_name l = Some name /\
    lot_capacity l = Some cap /\
    data_points (hourly_data_of l) = Ok df /\
    Pandas.update full_hours (hourly_avg cap (day_rows df)) = Ok full /\
    data s = Pandas.tolist full /\
    max_occupancy s = Pandas.max full /\
    List.length (data s) = 24%nat.
Proof.
  intros Hrun Hget.
  destruct (output_provenance _ _ _ _ _ Hrun Hget)
    as (lots & l & cap & df & p & c & Hf & Hin & Hn & Hc & Hdf & _ & Hu & _ & _ & ->).
  exists lots, l, cap, df, (dense cap df).
  repeat (split; [assumption |]).
  split; [| split; [reflexivity | split; [reflexivity | apply dense_length]]].
  rewrite update_full_hours, hourly_avg_labels, (day_rows_unique df Hu).
  f_equal. apply dense_day_rows.
Qed.

Lemma out_of_day_hours_are_ignored_witness :
  snd (analyze_parking_data
         (Ok [{| lot_name := Some "Late"; lot_capacity := Some 4;
                 lot_permit := Some "Staff"; lot_count_now := Some 1;
                 lot_historicalData :=
                   Some {| averageByHour :=
                             Some [("24", PyInt 4); ("7", PyInt 2); ("-1", PyInt 3)] |} |}])
         fresh_world)
  = Ok [("Late", summary_of 4 [(7, PyInt 2)] "Staff" 1)] /\
  Py.dict_get "Late" [("Late", summary_of 4 [(7, PyInt 2)] "Staff" 1)]
  = Some (summary_of 4 [(7, PyInt 2)] "Staff" 1) /\
  exists lots l cap df full,
    Ok [{| lot_name := Some "Late"; lot_capacity := Some 4;
           lot_permit := Some "Staff"; lot_count_now := Some 1;
           lot_historicalData :=
             Some {| averageByHour :=
                       Some [("24", PyInt 4); ("7", PyInt 2); ("-1", PyInt 3)] |} |}]
    = Ok lots /\ In l lots /\ lot_name l = Some "Late" /\
    lot_capacity l = Some cap /\
    data_points (hourly_data_of l) = Ok df /\
    Pandas.update full_hours (hourly_avg cap (day_rows df)) = Ok full /\
    data (summary_of 4 [(7, PyInt 2)] "Staff" 1) = Pandas.tolist full /\
    max_occupancy (summary_of 4 [(7, PyInt 2)] "Staff" 1) = Pandas.max full /\
    List.length (data (summary_of 4 [(7, PyInt 2)] "Staff" 1)) = 24%nat.
Proof.
  split; [vm_compute; reflexivity |].
  split; [vm_compute; reflexivity |].
  apply (out_of_day_hours_are_ignored _ fresh_world
           [("Late", summary_of 4 [(7, PyInt 2)] "Staff" 1)]);
    vm_compute; reflexivity.
Defined.

(** * Further properties of the aggregation *)

(** ** One lot at a time *)

Lemma analyze_lot_from_empty (l : lot) (pt : Py.dict summary) :
  analyze_lot l pt =
  match analyze_lot l [] with
  | Raise e => Raise e
  | Ok [] => Ok pt
  | Ok ((name, s) :: _) => Ok (Py.dict_set name s pt)
  end.
Proof.
  unfold analyze_lot.
  destruct (lot_name l) as [name |]; [| reflexivity].
  destruct (lot_capacity l) as [cap |]; [| reflexivity].
  cbn [Py.getitem bind].
  destruct (data_points (hourly_data_of l)) as [df |]; [| reflexivity].
  cbn [bind].
  destruct df as [| row df]; [reflexivity |].
  destruct (Pandas.update full_hours (hourly_avg cap (row :: df))) as [full |];
    [| reflexivity].
  cbn [bind].
  destruct (lot_permit l) as [p |]; [| reflexivity].
  destruct (lot_count_now l) as [c |]; reflexivity.
Qed.

Lemma analyze_lot_is_ok (l : lot) (pt : Py.dict summary) :
  is_ok (analyze_lot l pt) = is_ok (analyze_lot l []).
Proof.
  rewrite (analyze_lot_from_empty l pt).
  destruct (analyze_lot l []) as [[| [name s] rest] | e]; reflexivity.
Qed.

Lemma for_each_is_ok (lots : list lot) (acc : Py.dict summary) :
  is_ok (for_each analyze_lot lots acc) = true <->
  forall l, In l lots -> is_ok (analyze_lot l []) = true.
Proof.
  revert acc. induction lots as [| l lots IH]; intros acc.
  - simpl. split; [intros _ l [] | reflexivity].
  - simpl. split.
    + intros H l' [E | Hin].
      * subst l'. rewrite <- (analyze_lot_is_ok l acc).
        destruct (analyze_lot l acc); [reflexivity | discriminate].
      * destruct (analyze_lot l acc) as [acc' |]; [| discriminate].
        cbn [bind] in H. apply (proj1 (IH acc') H). exact Hin.
    + intros H.
      assert (Hl : is_ok (analyze_lot l acc) = true)
        by (rewrite analyze_lot_is_ok; apply H; left; reflexivity).
      destruct (analyze_lot l acc) as [acc' |]; [| discriminate].
      cbn [bind]. apply IH. intros l' Hin. apply H. right. exact Hin.
Qed.

(** X1: the loop body treats a lot independently of the mapping built from
    the lots before it.  On any two mappings it either raises the same
    exception, or leaves both unchanged, or stores one and the same summary
    under one and the same name into both. *)
Theorem lots_are_aggregated_independently (l : lot) (pt pt' : Py.dict summary) :
  match analyze_lot l pt, analyze_lot l pt' with
  | Raise e, Raise e' => e = e'
  | Ok r, Ok r' =>
      (r = pt /\ r' = pt') \/
      exists name s, r = Py.dict_set name s pt /\ r' = Py.dict_set name s pt'
  | _, _ => False
  end.
Proof.
  rewrite (analyze_lot_from_empty l pt), (analyze_lot_from_empty l pt').
  destruct (analyze_lot l []) as [[| [name s] rest] | e].
  - left. split; reflexivity.
  - right. exists name, s. split; reflexivity.
  - reflexivity.
Qed.

(** X2: a run returns exactly when the output file can be opened and every
    fetched lot, aggregated on its own, raises nothing: no lot can make or
    break the run for another. *)
Theorem run_succeeds_iff_each_lot_does (lots : list lot) (w : world) :
  is_ok (snd (analyze_parking_data (Ok lots) w)) = true <->
  can_open w = true /\ forall l, In l lots -> is_ok (analyze_lot l []) = true.
Proof.
  rewrite <- (for_each_is_ok lots []).
  unfold analyze_parking_data. cbn [bind].
  destruct (for_each analyze_lot lots []) as [pt | e]; cbn [is_ok].
  - destruct (can_open w); cbn; intuition congruence.
  - cbn. intuition congruence.
Qed.

(** ** Labels that cannot be aggregated *)

Lemma run_raises_with_lot (lots : list lot) (w : world) (l : lot) :
  In l lots ->
  (forall pt, exists e, analyze_lot l pt = Raise e) ->
  exists e, analyze_parking_data (Ok lots) w = (w, Raise e).
Proof.
  intros Hin Hbody. unfold analyze_parking_data. cbn [bind].
  destruct (for_each_raises analyze_lot lots l Hin Hbody []) as [e He].
  rewrite He. exists e. reflexivity.
Qed.

Lemma comprehension_raises {A B : Type} (f : A -> result B) (xs : list A)
      (x : A) (e : exn) :
  In x xs -> f x = Raise e -> exists e', comprehension f xs = Raise e'.
Proof.
  intros Hin Hf. induction xs as [| a xs IH].
  - contradiction.
  - simpl. destruct (f a) as [b |] eqn:Ea; [| eexists; reflexivity].
    cbn [bind]. destruct Hin as [-> | Hin]; [congruence |].
    destruct (IH Hin) as [e' ->]. eexists. reflexivity.
Qed.

(** X3: an hourly entry whose label is ASCII text that [int] does not read
    as an integer aborts the whole run: the run raises and leaves the world
    untouched, wherever the lot stands among the fetched lots and wherever
    the entry stands in its mapping. *)
Theorem unreadable_hour_label_is_fatal (lots : list lot) (w : world) (l : lot)
        (hour : string) (count : number) (e0 : exn) :
  In l lots ->
  In (hour, count) (hourly_data_of l) ->
  Py.isascii hour = true ->
  Py.int hour = Raise e0 ->
  exists e, analyze_parking_data (Ok lots) w = (w, Raise e).
Proof.
  intros Hin Hentry _ Hbad. apply (run_raises_with_lot lots w l Hin).
  intros pt. unfold analyze_lot.
  destruct (lot_name l) as [name |]; [| eexists; reflexivity].
  destruct (lot_capacity l) as [cap |]; [| eexists; reflexivity].
  cbn [Py.getitem bind]. unfold data_points.
  destruct (comprehension_raises
              (fun '(hour, count) => h <- Py.int hour ;; Ok (h, count))
              (hourly_data_of l) (hour, count) e0 Hentry) as [e' He'].
  { cbn. rewrite Hbad. reflexivity. }
  rewrite He'. eexists. reflexivity.
Qed.

Lemma unreadable_hour_label_is_fatal_witness :
  In Noon [North; Noon] /\
  In ("noon", PyInt 2) (hourly_data_of Noon) /\
  Py.isascii "noon" = true /\
  Py.int "noon" = Raise (ValueError_int "noon") /\
  exists e, analyze_parking_data (Ok [North; Noon]) fresh_world = (fresh_world, Raise e).
Proof.
  split; [right; left; reflexivity |].
  split; [right; left; reflexivity |].
  split; [reflexivity |].
  split; [reflexivity |].
  apply (unreadable_hour_label_is_fatal [North; Noon] fresh_world Noon
           "noon" (PyInt 2) (ValueError_int "noon")).
  - right. left. reflexivity.
  - right. left. reflexivity.
  - reflexivity.
  - reflexivity.
Defined.

Lemma is_unique_NoDup (labels : list Z) :
  Pandas.is_unique labels = true <-> NoDup labels.
Proof.
  induction labels as [| l labels IH]; simpl.
  - split; [constructor | reflexivity].
  - rewrite andb_true_iff, negb_true_iff, NoDup_cons_iff, IH.
    split; intros [Hfresh Hu]; split; try assumption.
    + intros Hin. apply existsb_label_In in Hin. congruence.
    + destruct (existsb (Z.eqb l) labels) eqn:E; [| reflexivity].
      apply existsb_label_In in E. contradiction.
Qed.

Lemma data_points_split (m1 m2 : Py.dict number) (hour : string) (count : number)
      (h : Z) (df : list (Z * number)) :
  data_points (m1 ++ (hour, count) :: m2)%list = Ok df ->
  Py.int hour = Ok h ->
  exists d1 d2, df = (d1 ++ (h, count) :: d2)%list /\ data_points m2 = Ok d2.
Proof.
  unfold data_points. revert df.
  induction m1 as [| [hour0 count0] m1 IH]; intros df H Hh; simpl in H.
  - rewrite Hh in H. cbn [bind] in H.
    destruct (comprehension _ m2) as [d2 |]; [| discriminate].
    cbn [bind] in H. injection H as <-.
    exists [], d2. split; reflexivity.
  - destruct (Py.int hour0) as [h0 |]; [| discriminate]. cbn [bind] in H.
    destruct (comprehension _ (m1 ++ (hour, count) :: m2)%list) as [df' |] eqn:E;
      [| discriminate].
    cbn [bind] in H. injection H as <-.
    destruct (IH df' eq_refl Hh) as (d1 & d2 & -> & Hd2).
    exists ((h0, count0) :: d1), d2. split; [reflexivity | exact Hd2].
Qed.

(** X4: two hourly entries of one lot whose labels read as the same integer
    (such as 8 and 08) abort the whole run, whether or not that integer is
    an hour of the day: the run raises and leaves the world untouched. *)
Theorem duplicate_hour_is_fatal (lots : list lot) (w : world) (l : lot)
        (m1 m2 m3 : Py.dict number) (hour1 hour2 : string) (c1 c2 : number) (h : Z) :
  In l lots ->
  hourly_data_of l = (m1 ++ (hour1, c1) :: m2 ++ (hour2, c2) :: m3)%list ->
  Py.int hour1 = Ok h ->
  Py.int hour2 = Ok h ->
  exists e, analyze_parking_data (Ok lots) w = (w, Raise e).
Proof.
  intros Hin Hm H1 H2. apply (run_raises_with_lot lots w l Hin).
  intros pt. unfold analyze_lot.
  destruct (lot_name l) as [name |]; [| eexists; reflexivity].
  destruct (lot_capacity l) as [cap |]; [| eexists; reflexivity].
  cbn [Py.getitem bind].
  destruct (data_points (hourly_data_of l)) as [df |] eqn:Hdf; [| eexists; reflexivity].
  cbn [bind]. rewrite Hm in Hdf.
  destruct (data_points_split _ _ _ _ _ _ Hdf H1) as (d1 & d' & -> & Hd').
  destruct (data_points_split _ _ _ _ _ _ Hd' H2) as (d2 & d3 & -> & _).
  assert (Hdup : Pandas.is_unique
                   (map fst (d1 ++ (h, c1) :: d2 ++ (h, c2) :: d3)%list) = false).
  { destruct (Pandas.is_unique _) eqn:E; [| reflexivity].
    apply is_unique_NoDup in E. rewrite map_app in E. cbn [map fst] in E.
    apply NoDup_remove_2 in E. exfalso. apply E.
    apply in_or_app. right. rewrite map_app. apply in_or_app. right.
    left. reflexivity. }
  destruct (d1 ++ (h, c1) :: d2 ++ (h, c2) :: d3)%list as [| row df] eqn:Edf.
  - destruct d1; discriminate.
  - rewrite update_full_hours, hourly_avg_labels, Hdup.
    eexists. reflexivity.
Qed.

Lemma duplicate_hour_is_fatal_witness :
  In Twice [Twice; North] /\
  hourly_data_of Twice = ([] ++ ("8", PyInt 1) :: [] ++ ("08", PyInt 2) :: [])%list /\
  Py.int "8" = Ok 8 /\
  Py.int "08" = Ok 8 /\
  exists e, analyze_parking_data (Ok [Twice; North]) fresh_world = (fresh_world, Raise e).
Proof.
  split; [left; reflexivity |].
  split; [reflexivity |].
  split; [reflexivity |].
  split; [reflexivity |].
  apply (duplicate_hour_is_fatal [Twice; North] fresh_world Twice
           [] [] [] "8" "08" (PyInt 1) (PyInt 2) 8).
  - left. reflexivity.
  - reflexivity.
  - reflexivity.
  - reflexivity.
Defined.

(** ** The keys of the mapping *)

Lemma keys_dict_set {V : Type} (k : string) (v : V) (d : Py.dict V) :
  keys (Py.dict_set k v d) = add_key (keys d) k.
Proof.
  unfold keys, add_key. induction d as [| [k0 v0] d IH]; simpl.
  - reflexivity.
  - destruct (String.eqb k k0) eqn:E; simpl.
    + apply String.eqb_eq in E. subst k0. reflexivity.
    + rewrite IH. destruct (existsb (String.eqb k) (map fst d)); reflexivity.
Qed.

Lemma existsb_key_In (k : string) (ks : list string) :
  existsb (String.eqb k) ks = true <-> In k ks.
Proof.
  rewrite existsb_exists. split.
  - intros [x [Hx E]]. apply String.eqb_eq in E. congruence.
  - intros Hin. exists k. split; [exact Hin | apply String.eqb_refl].
Qed.

Lemma add_key_In (ks : list string) (k k' : string) :
  In k' (add_key ks k) <-> In k' ks \/ k' = k.
Proof.
  unfold add_key. destruct (existsb (String.eqb k) ks) eqn:E.
  - apply existsb_key_In in E. split; [tauto |].
    intros [H | ->]; assumption.
  - rewrite in_app_iff. simpl. intuition congruence.
Qed.

Lemma add_key_NoDup (ks : list string) (k : string) :
  NoDup ks -> NoDup (add_key ks k).
Proof.
  intros Hnd. unfold add_key. destruct (existsb (String.eqb k) ks) eqn:E.
  - exact Hnd.
  - assert (Hk : ~ In k ks).
    { intros Hin. apply existsb_key_In in Hin. congruence. }
    clear E. induction Hnd as [| a ks Ha Hnd IH]; simpl.
    + constructor; [intros [] | constructor].
    + constructor.
      * rewrite in_app_iff. simpl. intros [H | [H | []]].
        -- contradiction.
        -- apply Hk. left. symmetry. exact H.
      * apply IH. intros Hin. apply Hk. right. exact Hin.
Qed.

Lemma fold_add_key_NoDup (names ks : list string) :
  NoDup ks -> NoDup (fold_left add_key names ks).
Proof.
  revert ks. induction names as [| n names IH]; intros ks Hnd; simpl.
  - exact Hnd.
  - apply IH, add_key_NoDup, Hnd.
Qed.

Lemma fold_add_key_In (names ks : list string) (k : string) :
  In k (fold_left add_key names ks) <-> In k ks \/ In k names.
Proof.
  revert ks. induction names as [| n names IH]; intros ks; simpl.
  - tauto.
  - rewrite IH, add_key_In. intuition congruence.
Qed.

Lemma for_each_keys (lots : list lot) (acc pt : Py.dict summary) :
  for_each analyze_lot lots acc = Ok pt ->
  keys pt = fold_left add_key (names_with_history lots) (keys acc).
Proof.
  revert acc. induction lots as [| l lots IH]; intros acc Hloop; simpl in Hloop.
  - injection Hloop as <-. reflexivity.
  - destruct (analyze_lot l acc) as [acc' |] eqn:Hbody; [| discriminate].
    cbn [bind] in Hloop. rewrite (IH acc' Hloop).
    unfold names_with_history. cbn [flat_map]. rewrite fold_left_app.
    f_equal.
    apply analyze_lot_Ok in Hbody
      as (name & cap & df & Hn & _ & Hdf & [[Hnil ->] | (Hne & _ & p & c & _ & _ & ->)]).
    + apply (data_points_nil _ _ Hdf) in Hnil. rewrite Hnil. reflexivity.
    + rewrite Hn, keys_dict_set.
      destruct (hourly_data_of l) as [| entry m] eqn:Em; [| reflexivity].
      exfalso. apply Hne. apply (data_points_nil _ _ Hdf). reflexivity.
Qed.

Lemma run_Ok_loop (lots : list lot) (w : world) (pt : Py.dict summary) :
  snd (analyze_parking_data (Ok lots) w) = Ok pt ->
  for_each analyze_lot lots [] = Ok pt.
Proof.
  unfold analyze_parking_data. cbn [bind].
  destruct (for_each analyze_lot lots []) as [pt0 |]; [| discriminate].
  destruct (can_open w); [| discriminate].
  cbn. congruence.
Qed.

Lemma dict_get_In_keys {V : Type} (k : string) (d : Py.dict V) :
  In k (keys d) <-> exists v, Py.dict_get k d = Some v.
Proof.
  unfold keys. induction d as [| [k0 v0] d IH]; simpl.
  - split; [intros [] | intros [v H]; discriminate].
  - destruct (String.eqb k k0) eqn:E.
    + apply String.eqb_eq in E. subst k0. split; [eauto | auto].
    + rewrite <- IH. apply String.eqb_neq in E. intuition congruence.
Qed.

(** X5: the keys of the mapping a run returns are pairwise distinct and are
    exactly the names of the fetched lots that have at least one hourly
    entry, each name once, in the order in which such a lot first
    appears. *)
Theorem output_keys_in_first_appearance_order (lots : list lot) (w : world)
        (pt : Py.dict summary) :
  snd (analyze_parking_data (Ok lots) w) = Ok pt ->
  keys pt = fold_left add_key (names_with_history lots) [] /\
  NoDup (keys pt) /\
  forall name, In name (keys pt) <-> In name (names_with_history lots).
Proof.
  intros Hrun. apply run_Ok_loop in Hrun.
  rewrite (for_each_keys lots [] pt Hrun). cbn [keys map].
  split; [reflexivity |]. split.
  - apply fold_add_key_NoDup. constructor.
  - intros name. rewrite fold_add_key_In. simpl. tauto.
Qed.

Lemma output_keys_in_first_appearance_order_witness :
  snd (analyze_parking_data (Ok [North; Quiet; Late; North_again]) fresh_world)
  = Ok [("North", summary_of 4 [(7, PyInt 2)] "Visitor" 2);
        ("Late", summary_of 4 [(24, PyInt 4); (7, PyInt 2); (-1, PyInt 3)] "Staff" 1)] /\
  keys [("North", summary_of 4 [(7, PyInt 2)] "Visitor" 2);
        ("Late", summary_of 4 [(24, PyInt 4); (7, PyInt 2); (-1, PyInt 3)] "Staff" 1)]
  = fold_left add_key (names_with_history [North; Quiet; Late; North_again]) [].
Proof.
  split; [vm_compute; reflexivity |].
  apply (output_keys_in_first_appearance_order
           [North; Quiet; Late; North_again] fresh_world).
  vm_compute. reflexivity.
Defined.

(** X6: when a run returns, every fetched lot that has at least one hourly
    entry has an entry under its name in the returned mapping. *)
Theorem lot_with_history_is_in_output (lots : list lot) (w : world)
        (pt : Py.dict summary) (l : lot) (name : string) :
  snd (analyze_parking_data (Ok lots) w) = Ok pt ->
  In l lots ->
  lot_name l = Some name ->
  hourly_data_of l <> [] ->
  exists s, Py.dict_get name pt = Some s.
Proof.
  intros Hrun Hin Hn Hne. apply run_Ok_loop in Hrun.
  apply dict_get_In_keys. rewrite (for_each_keys lots [] pt Hrun).
  apply fold_add_key_In. right.
  unfold names_with_history. apply in_flat_map. exists l. split; [exact Hin |].
  rewrite Hn. destruct (hourly_data_of l); [contradiction | left; reflexivity].
Qed.

Lemma lot_with_history_is_in_output_witness :
  snd (analyze_parking_data (Ok [Quiet; North]) fresh_world)
  = Ok [("North", North_summary)] /\
  In North [Quiet; North] /\
  lot_name North = Some "North" /\
  hourly_data_of North <> [] /\
  exists s, Py.dict_get "North" [("North", North_summary)] = Some s.
Proof.
  split; [vm_compute; reflexivity |].
  split; [right; left; reflexivity |].
  split; [reflexivity |].
  split; [discriminate |].
  apply (lot_with_history_is_in_output [Quiet; North] fresh_world
           [("North", North_summary)] North "North").
  - vm_compute. reflexivity.
  - right. left. reflexivity.
  - reflexivity.
  - discriminate.
Defined.

(** ** Lots that share a name *)

Lemma for_each_app {A S : Type} (body : A -> S -> result S) (xs ys : list A) (acc : S) :
  for_each body (xs ++ ys)%list acc =
  (acc' <- for_each body xs acc ;; for_each body ys acc').
Proof.
  revert acc. induction xs as [| x xs IH]; intros acc; simpl.
  - reflexivity.
  - destruct (body x acc) as [acc' |]; [| reflexivity].
    cbn [bind]. apply IH.
Qed.

Lemma for_each_keeps_entry (lots : list lot) (acc pt : Py.dict summary) (name : string) :
  for_each analyze_lot lots acc = Ok pt ->
  (forall l, In l lots -> lot_name l = Some name -> hourly_data_of l = []) ->
  Py.dict_get name pt = Py.dict_get name acc.
Proof.
  revert acc. induction lots as [| l lots IH]; intros acc Hloop Hquiet; simpl in Hloop.
  - injection Hloop as <-. reflexivity.
  - destruct (analyze_lot l acc) as [acc' |] eqn:Hbody; [| discriminate].
    cbn [bind] in Hloop.
    rewrite (IH acc' Hloop) by (intros l' Hin; apply Hquiet; right; exact Hin).
    apply analyze_lot_Ok in Hbody
      as (name' & cap & df & Hn & _ & Hdf & [[_ ->] | (Hne & _ & p & c & _ & _ & ->)]).
    + reflexivity.
    + rewrite dict_get_set. destruct (String.eqb name name') eqn:E; [| reflexivity].
      apply String.eqb_eq in E. subst name'.
      exfalso. apply Hne. apply (data_points_nil _ _ Hdf).
      apply Hquiet; [left; reflexivity | exact Hn].
Qed.

(** X7: among fetched lots of one name the last one with hourly entries
    wins.  If a run over [before ++ l :: after] returns, [l] has at least one
    hourly entry and no lot of its name in [after] has any, then the entry
    under that name is the summary of [l]: its 24 rates, their maximum, and
    its own permit, count_now and capacity. *)
Theorem last_lot_of_a_name_wins (before after : list lot) (l : lot) (w : world)
        (pt : Py.dict summary) (name : string) :
  snd (analyze_parking_data (Ok (before ++ l :: after)%list) w) = Ok pt ->
  lot_name l = Some name ->
  hourly_data_of l <> [] ->
  (forall l', In l' after -> lot_name l' = Some name -> hourly_data_of l' = []) ->
  exists cap df p c,
    lot_capacity l = Some cap /\
    data_points (hourly_data_of l) = Ok df /\
    lot_permit l = Some p /\
    lot_count_now l = Some c /\
    Py.dict_get name pt = Some (summary_of cap df p c) /\
    permit (summary_of cap df p c) = p /\
    current_occupancy (summary_of cap df p c) = c /\
    capacity (summary_of cap df p c) = cap.
Proof.
  intros Hrun Hn Hne Hafter. apply run_Ok_loop in Hrun.
  rewrite for_each_app in Hrun.
  destruct (for_each analyze_lot before []) as [acc |]; [| discriminate].
  cbn [bind for_each] in Hrun.
  destruct (analyze_lot l acc) as [acc' |] eqn:Hbody; [| discriminate].
  cbn [bind] in Hrun.
  rewrite (for_each_keeps_entry after acc' pt name Hrun Hafter).
  apply analyze_lot_Ok in Hbody
    as (name' & cap & df & Hn' & Hc & Hdf & [[Hnil _] | (_ & _ & p & c & Hp & Hcn & ->)]).
  - exfalso. apply Hne. apply (data_points_nil _ _ Hdf). exact Hnil.
  - assert (name' = name) by congruence. subst name'.
    exists cap, df, p, c.
    rewrite dict_get_set, String.eqb_refl.
    repeat split; assumption.
Qed.

Lemma last_lot_of_a_name_wins_witness :
  snd (analyze_parking_data (Ok ([North] ++ North_again :: [Quiet])%list) fresh_world)
  = Ok [("North", summary_of 4 [(7, PyInt 2)] "Visitor" 2)] /\
  lot_name North_again = Some "North" /\
  hourly_data_of North_again <> [] /\
  exists cap df p c,
    lot_capacity North_again = Some cap /\
    data_points (hourly_data_of North_again) = Ok df /\
    lot_permit North_again = Some p /\
    lot_count_now North_again = Some c /\
    Py.dict_get "North" [("North", summary_of 4 [(7, PyInt 2)] "Visitor" 2)]
    = Some (summary_of cap df p c) /\
    permit (summary_of cap df p c) = p /\
    current_occupancy (summary_of cap df p c) = c /\
    capacity (summary_of cap df p c) = cap.
Proof.
  split; [vm_compute; reflexivity |].
  split; [reflexivity |].
  split; [discriminate |].
  apply (last_lot_of_a_name_wins [North] [Quiet] North_again fresh_world
           [("North", summary_of 4 [(7, PyInt 2)] "Visitor" 2)] "North").
  - vm_compute. reflexivity.
  - reflexivity.
  - discriminate.
  - intros l' [<- | []] H. discriminate.
Defined.

(** ** What the rates can be *)

(** X8: no summary of the mapping a run returns holds a NaN: none of the 24
    entries of data is NaN and max_occupancy is not NaN, whatever the
    capacity and the counts of the lot. *)
Theorem summaries_hold_no_nan (fetched : result (list lot)) (w : world)
        (pt : Py.dict summary) (name : string) (s : summary) :
  snd (analyze_parking_data fetched w) = Ok pt ->
  Py.dict_get name pt = Some s ->
  (forall v, In v (data s) -> isnan v = false) /\
  isnan (max_occupancy s) = false.
Proof.
  intros Hrun Hget.
  destruct (output_provenance _ _ _ _ _ Hrun Hget)
    as (lots & l & cap & df & p & c & _ & _ & _ & _ & _ & _ & _ & _ & _ & ->).
  cbn [summary_of data max_occupancy].
  split.
  - apply dense_without_nan.
  - apply (dense_without_nan cap df).
    apply max_without_nan; [discriminate | apply dense_without_nan].
Qed.

Lemma summaries_hold_no_nan_witness :
  snd (analyze_parking_data (Ok [Idle]) fresh_world) = Ok [("Idle", Idle_summary)] /\
  Py.dict_get "Idle" [("Idle", Idle_summary)] = Some Idle_summary /\
  (forall v, In v (data Idle_summary) -> isnan v = false) /\
  isnan (max_occupancy Idle_summary) = false.
Proof.
  split; [vm_compute; reflexivity |].
  split; [reflexivity |].
  apply (summaries_hold_no_nan (Ok [Idle]) fresh_world
           [("Idle", Idle_summary)] "Idle" Idle_summary);
    vm_compute; reflexivity.
Defined.

(** X9: hours the lot has no entry for are filled with 0.0: in every summary
    of the mapping a run returns, data[h] is 0.0 at every hour h of 0..23
    that none of the labels of the lot reads as. *)
Theorem missing_hours_are_zero (fetched : result (list lot)) (w : world)
        (pt : Py.dict summary) (name : string) (s : summary) :
  snd (analyze_parking_data fetched w) = Ok pt ->
  Py.dict_get name pt = Some s ->
  exists lots l,
    fetched = Ok lots /\ In l lots /\ lot_name l = Some name /\
    forall h,
      0 <= h < 24 ->
      (forall hour count, In (hour, count) (hourly_data_of l) -> Py.int hour <> Ok h) ->
      nth_error (data s) (Z.to_nat h) = Some zero.
Proof.
  intros Hrun Hget.
  destruct (output_provenance _ _ _ _ _ Hrun Hget)
    as (lots & l & cap & df & p & c & Hf & Hin & Hn & _ & Hdf & _ & _ & _ & _ & ->).
  exists lots, l. repeat (split; [assumption |]).
  intros h Hday Habsent.
  cbn [summary_of data]. rewrite dense_data_nth by exact Hday.
  unfold hour_slot. rewrite loc_None; [reflexivity |].
  rewrite hourly_avg_labels. intros Hlabel.
  apply in_map_iff in Hlabel as [[h' count] [E Hrow]]. cbn in E. subst h'.
  destruct (data_points_In_inv _ _ Hdf _ _ Hrow) as [hour [Hm Hparse]].
  exact (Habsent hour count Hm Hparse).
Qed.

Lemma missing_hours_are_zero_witness :
  snd (analyze_parking_data (Ok [North]) fresh_world) = Ok [("North", North_summary)] /\
  Py.dict_get "North" [("North", North_summary)] = Some North_summary /\
  exists lots l,
    Ok [North] = Ok lots /\ In l lots /\ lot_name l = Some "North" /\
    forall h,
      0 <= h < 24 ->
      (forall hour count, In (hour, count) (hourly_data_of l) -> Py.int hour <> Ok h) ->
      nth_error (data North_summary) (Z.to_nat h) = Some zero.
Proof.
  split; [vm_compute; reflexivity |].
  split; [reflexivity |].
  apply (missing_hours_are_zero (Ok [North]) fresh_world
           [("North", North_summary)] "North" North_summary);
    vm_compute; reflexivity.
Defined.

(** X10: a lot all of whose hourly entries lie outside 0..23 is not skipped
    like a lot without entries: provided its labels read as distinct
    integers and it has permit and count_now, the loop body stores a
    summary under its name whose data is 24 times 0.0 and whose
    max_occupancy is 0.0. *)
Theorem lot_with_only_foreign_hours_is_all_zero (l : lot) (name : string) (cap : Z)
        (df : list (Z * number)) (p : string) (c : Z) (pt : Py.dict summary) :
  lot_name l = Some name ->
  lot_capacity l = Some cap ->
  data_points (hourly_data_of l) = Ok df ->
  df <> [] ->
  Pandas.is_unique (map fst df) = true ->
  (forall h count, In (h, count) df -> in_day h = false) ->
  lot_permit l = Some p ->
  lot_count_now l = Some c ->
  analyze_lot l pt =
  Ok (Py.dict_set name
        {| data := repeat zero 24;
           max_occupancy := zero;
           permit := p;
           current_occupancy := c;
           capacity := cap |} pt).
Proof.
  intros Hn Hc Hdf Hne Hu Hout Hp Hcn.
  rewrite (analyze_lot_summarised l name cap df p c pt) by assumption.
  assert (Hdense : dense cap df = full_hours).
  { unfold dense, full_hours, Pandas.Series_const.
    apply map_ext_in. intros h Hh. apply range_In in Hh.
    unfold hour_slot. rewrite loc_None; [reflexivity |].
    rewrite hourly_avg_labels. intros Hlabel.
    apply in_map_iff in Hlabel as [[h' count] [E Hrow]]. cbn in E. subst h'.
    assert (Hday : in_day h = true) by (apply in_day_spec; lia).
    rewrite (Hout h count Hrow) in Hday. discriminate. }
  unfold summary_of. rewrite Hdense. reflexivity.
Qed.

Lemma lot_with_only_foreign_hours_is_all_zero_witness :
  lot_name Night = Some "Night" /\
  lot_capacity Night = Some 4 /\
  data_points (hourly_data_of Night) = Ok [(24, PyInt 4); (-1, PyInt 3)] /\
  analyze_lot Night [] =
  Ok (Py.dict_set "Night"
        {| data := repeat zero 24;
           max_occupancy := zero;
           permit := "Staff";
           current_occupancy := 1;
           capacity := 4 |} []).
Proof.
  split; [reflexivity |].
  split; [reflexivity |].
  split; [reflexivity |].
  apply (lot_with_only_foreign_hours_is_all_zero Night "Night" 4
           [(24, PyInt 4); (-1, PyInt 3)] "Staff" 1 []);
    try reflexivity.
  - discriminate.
  - intros h count [E | [E | []]]; injection E as <- _; reflexivity.
Defined.

Lemma loc_Some_In (cap : Z) (df : list (Z * number)) (h : Z) (v : float64) :
  Pandas.loc h (hourly_avg cap df) = Some v ->
  exists count, In (h, count) df /\ v = occupancy_rate count cap.
Proof.
  induction df as [| [h0 c0] df IH]; simpl; intros H.
  - discriminate.
  - destruct (Z.eqb_spec h h0) as [-> | _].
    + injection H as <-. exists c0. split; [left; reflexivity | reflexivity].
    + destruct (IH H) as [count [Hin Hv]].
      exists count. split; [right; exact Hin | exact Hv].
Qed.

Lemma binary_round_aux_sign (sx : bool) (mx ex : Z) (lx : location) :
  sign_bit (binary_round_aux prec emax sx mx ex lx) = Some sx \/
  sign_bit (binary_round_aux prec emax sx mx ex lx) = None.
Proof.
  unfold binary_round_aux.
  destruct (shr_fexp prec emax mx ex lx) as [mrs' e'].
  destruct (shr_fexp prec emax _ e' loc_Exact) as [mrs'' e''].
  destruct (shr_m mrs'') as [| m | m]; cbn.
  - left. reflexivity.
  - destruct (e'' <=? _); left; reflexivity.
  - right. reflexivity.
Qed.

Lemma of_int_sign (z : Z) :
  0 <= z -> sign_bit (of_int z) = Some false \/ sign_bit (of_int z) = None.
Proof.
  intros Hz. unfold of_int, binary_normalize.
  destruct z as [| m | m]; [left; reflexivity | | lia].
  unfold binary_round.
  destruct (shl_align m 0 _) as [mz ez].
  apply binary_round_aux_sign.
Qed.

Lemma unsigned_not_below_zero (x : float64) :
  sign_bit x = Some false \/ sign_bit x = None -> below_zero x = false.
Proof.
  destruct x as [[] | [] | | [] m e]; cbn; intros [H | H];
    try discriminate; reflexivity.
Qed.

Lemma div_not_below_zero (a b : float64) :
  below_zero a = false ->
  sign_bit b = Some false \/ sign_bit b = None ->
  below_zero (div a b) = false.
Proof.
  intros Ha Hb.
  destruct a as [sa | [] | | [] ma ea]; try discriminate Ha;
    destruct b as [[] | [] | | [] mb eb];
    try (destruct Hb as [Hb | Hb]; discriminate Hb);
    try reflexivity; try (destruct sa; reflexivity).
  unfold div, SFdiv.
  destruct (SFdiv_core_binary prec emax (Z.pos ma) ea (Z.pos mb) eb) as [[mz ez] lz].
  apply unsigned_not_below_zero, binary_round_aux_sign.
Qed.

Lemma mul_not_below_zero (a b : float64) :
  below_zero a = false ->
  sign_bit b = Some false \/ sign_bit b = None ->
  below_zero (mul a b) = false.
Proof.
  intros Ha Hb.
  destruct a as [sa | [] | | [] ma ea]; try discriminate Ha;
    destruct b as [[] | [] | | [] mb eb];
    try (destruct Hb as [Hb | Hb]; discriminate Hb);
    try reflexivity; try (destruct sa; reflexivity).
  unfold mul, SFmul.
  apply unsigned_not_below_zero, binary_round_aux_sign.
Qed.

Lemma occupancy_rate_not_below_zero (count : number) (cap : Z) :
  0 <= cap ->
  below_zero (to_float64 count) = false ->
  below_zero (occupancy_rate count cap) = false.
Proof.
  intros Hcap Hcount. unfold occupancy_rate.
  apply mul_not_below_zero.
  - apply div_not_below_zero; [exact Hcount | apply of_int_sign; exact Hcap].
  - apply of_int_sign. lia.
Qed.

(** X11: rates are never negative where counts are not.  In every summary
    of the mapping a run returns, if the capacity of the lot is not
    negative and none of its counts is below zero, then none of the 24
    entries of data is below 0.0, and neither is max_occupancy. *)
Theorem rates_are_not_negative (fetched : result (list lot)) (w : world)
        (pt : Py.dict summary) (name : string) (s : summary) :
  snd (analyze_parking_data fetched w) = Ok pt ->
  Py.dict_get name pt = Some s ->
  exists lots l cap,
    fetched = Ok lots /\ In l lots /\ lot_name l = Some name /\
    lot_capacity l = Some cap /\
    (0 <= cap ->
     (forall hour count,
         In (hour, count) (hourly_data_of l) ->
         below_zero (to_float64 count) = false) ->
     (forall v, In v (data s) -> below_zero v = false) /\
     below_zero (max_occupancy s) = false).
Proof.
  intros Hrun Hget.
  destruct (output_provenance _ _ _ _ _ Hrun Hget)
    as (lots & l & cap & df & p & c & Hf & Hin & Hn & Hc & Hdf & _ & _ & _ & _ & ->).
  exists lots, l, cap. repeat (split; [assumption |]).
  intros Hcap Hcounts. cbn [summary_of data max_occupancy].
  assert (Hdata : forall v, In v (Pandas.tolist (dense cap df)) -> below_zero v = false).
  { intros v Hv. unfold Pandas.tolist, dense in Hv.
    rewrite map_map in Hv. cbn [snd] in Hv.
    apply in_map_iff in Hv as [h [<- _]].
    unfold hour_slot.
    destruct (Pandas.loc h (hourly_avg cap df)) as [r |] eqn:Hloc; [| reflexivity].
    destruct (isnan r); [reflexivity |].
    destruct (loc_Some_In _ _ _ _ Hloc) as [count [Hrow ->]].
    destruct (data_points_In_inv _ _ Hdf _ _ Hrow) as [hour [Hm _]].
    apply occupancy_rate_not_below_zero; [exact Hcap |].
    exact (Hcounts hour count Hm). }
  split; [exact Hdata |].
  apply Hdata.
  apply max_without_nan; [discriminate | apply dense_without_nan].
Qed.

Lemma rates_are_not_negative_witness :
  snd (analyze_parking_data (Ok [Closed]) fresh_world) = Ok [("Closed", Closed_summary)] /\
  Py.dict_get "Closed" [("Closed", Closed_summary)] = Some Closed_summary /\
  exists lots l cap,
    Ok [Closed] = Ok lots /\ In l lots /\ lot_name l = Some "Closed" /\
    lot_capacity l = Some cap /\
    (0 <= cap ->
     (forall hour count,
         In (hour, count) (hourly_data_of l) ->
         below_zero (to_float64 count) = false) ->
     (forall v, In v (data Closed_summary) -> below_zero v = false) /\
     below_zero (max_occupancy Closed_summary) = false).
Proof.
  split; [vm_compute; reflexivity |].
  split; [reflexivity |].
  apply (rates_are_not_negative (Ok [Closed]) fresh_world
           [("Closed", Closed_summary)] "Closed" Closed_summary);
    vm_compute; reflexivity.
Defined.

(** ** The order of the hourly entries *)

Lemma comprehension_Permutation {A B : Type} (f : A -> result B) (xs xs' : list A) :
  Permutation xs xs' ->
  forall ys, comprehension f xs = Ok ys ->
  exists ys', comprehension f xs' = Ok ys' /\ Permutation ys ys'.
Proof.
  induction 1 as [| x xs xs' Hperm IH | x y xs | xs xs' xs'' H1 IH1 H2 IH2];
    intros ys H.
  - exists ys. split; [exact H | apply Permutation_refl].
  - simpl in H. destruct (f x) as [b |] eqn:Ex; [| discriminate]. cbn [bind] in H.
    destruct (comprehension f xs) as [bs |]; [| discriminate].
    cbn [bind] in H. injection H as <-.
    destruct (IH bs eq_refl) as (bs' & Hbs' & Hp).
    exists (b :: bs'). simpl. rewrite Ex, Hbs'. split; [reflexivity |].
    apply perm_skip, Hp.
  - simpl in H. destruct (f y) as [b |] eqn:Ey; [| discriminate]. cbn [bind] in H.
    destruct (f x) as [a |] eqn:Ex; [| discriminate]. cbn [bind] in H.
    destruct (comprehension f xs) as [bs |] eqn:Ebs; [| discriminate].
    cbn [bind] in H. injection H as <-.
    exists (a :: b :: bs). simpl. rewrite Ex, Ey, Ebs. split; [reflexivity |].
    apply perm_swap.
  - destruct (IH1 ys H) as (ys' & Hys' & Hp1).
    destruct (IH2 ys' Hys') as (ys'' & Hys'' & Hp2).
    exists ys''. split; [exact Hys'' | eapply Permutation_trans; eassumption].
Qed.

Lemma loc_None_inv (s : Pandas.Series) (h : Z) :
  Pandas.loc h s = None -> ~ In h (map fst s).
Proof.
  induction s as [| [h0 v] s IH]; simpl; intros H.
  - intros [].
  - destruct (Z.eqb_spec h h0) as [-> | Hne]; [discriminate |].
    intros [E | Hin]; [congruence | exact (IH H Hin)].
Qed.

Lemma loc_Permutation (cap : Z) (df df' : list (Z * number)) (h : Z) :
  Pandas.is_unique (map fst df) = true ->
  Permutation df df' ->
  Pandas.loc h (hourly_avg cap df') = Pandas.loc h (hourly_avg cap df).
Proof.
  intros Hu Hperm.
  assert (Hu' : Pandas.is_unique (map fst df') = true).
  { apply is_unique_NoDup. apply is_unique_NoDup in Hu.
    eapply Permutation_NoDup; [| exact Hu]. apply Permutation_map, Hperm. }
  destruct (Pandas.loc h (hourly_avg cap df)) as [v |] eqn:Hloc.
  - destruct (loc_Some_In _ _ _ _ Hloc) as [count [Hrow ->]].
    apply loc_unique_In; [exact Hu' |].
    eapply Permutation_in; eassumption.
  - apply loc_None. apply loc_None_inv in Hloc.
    rewrite hourly_avg_labels in *. intros Hin. apply Hloc.
    eapply Permutation_in; [| exact Hin].
    apply Permutation_map, Permutation_sym, Hperm.
Qed.

(** X12: the order of the entries of averageByHour does not matter.  If two
    lots agree on name, capacity, permit and count_now and the hourly
    entries of one are a rearrangement of those of the other, then
    whenever the loop body returns on the first it returns the same mapping
    on the second. *)
Theorem hourly_entry_order_is_irrelevant (l l' : lot) (pt pt' : Py.dict summary) :
  lot_name l' = lot_name l ->
  lot_capacity l' = lot_capacity l ->
  lot_permit l' = lot_permit l ->
  lot_count_now l' = lot_count_now l ->
  Permutation (hourly_data_of l) (hourly_data_of l') ->
  analyze_lot l pt = Ok pt' ->
  analyze_lot l' pt = Ok pt'.
Proof.
  intros Hn Hc Hp Hcn Hperm Hbody.
  apply analyze_lot_Ok in Hbody
    as (name & cap & df & Hname & Hcap & Hdf & Hcases).
  destruct (comprehension_Permutation _ _ _ Hperm df Hdf) as (df' & Hdf' & Hpdf).
  fold (data_points (hourly_data_of l')) in Hdf'.
  destruct Hcases as [[Hnil ->] | (Hne & Hu & p & c & Hpermit & Hcount & ->)].
  - apply (analyze_lot_no_history l' name cap); try congruence.
    apply (data_points_nil _ _ Hdf'). subst df.
    apply Permutation_nil. exact Hpdf.
  - assert (Hu' : Pandas.is_unique (map fst df') = true).
    { apply is_unique_NoDup. apply is_unique_NoDup in Hu.
      eapply Permutation_NoDup; [| exact Hu]. apply Permutation_map, Hpdf. }
    assert (Hne' : df' <> []).
    { intros ->. apply Hne. apply Permutation_nil, Permutation_sym, Hpdf. }
    rewrite (analyze_lot_summarised l' name cap df' p c pt); try congruence.
    assert (Hdense : dense cap df' = dense cap df).
    { unfold dense. apply map_ext. intros h. unfold hour_slot.
      rewrite (loc_Permutation cap df df' h Hu Hpdf). reflexivity. }
    unfold summary_of. rewrite Hdense. reflexivity.
Qed.

Lemma hourly_entry_order_is_irrelevant_witness :
  lot_name Late_reordered = lot_name Late /\
  Permutation (hourly_data_of Late) (hourly_data_of Late_reordered) /\
  analyze_lot Late [] = Ok [("Late", summary_of 4 [(7, PyInt 2)] "Staff" 1)] /\
  analyze_lot Late_reordered [] = Ok [("Late", summary_of 4 [(7, PyInt 2)] "Staff" 1)].
Proof.
  assert (Hperm : Permutation (hourly_data_of Late) (hourly_data_of Late_reordered)).
  { cbn. apply Permutation_cons_append with (l := [("7", PyInt 2); ("-1", PyInt 3)]). }
  split; [reflexivity |].
  split; [exact Hperm |].
  split; [vm_compute; reflexivity |].
  apply (hourly_entry_order_is_irrelevant Late Late_reordered []
           [("Late", summary_of 4 [(7, PyInt 2)] "Staff" 1)]);
    first [exact Hperm | vm_compute; reflexivity].
Defined.

(** ** The order of the fetched lots *)

Lemma for_each_entry_of_last (before after : list lot) (l : lot)
      (pt : Py.dict summary) (name : string) (s : summary) :
  for_each analyze_lot (before ++ l :: after)%list [] = Ok pt ->
  analyze_lot l [] = Ok [(name, s)] ->
  (forall l', In l' after -> lot_name l' <> Some name) ->
  Py.dict_get name pt = Some s.
Proof.
  intros Hloop Hl Hafter. rewrite for_each_app in Hloop.
  destruct (for_each analyze_lot before []) as [acc |]; [| discriminate].
  cbn [bind for_each] in Hloop.
  rewrite (analyze_lot_from_empty l acc), Hl in Hloop. cbn [bind] in Hloop.
  rewrite (for_each_keeps_entry after _ pt name Hloop).
  - rewrite dict_get_set, String.eqb_refl. reflexivity.
  - intros l' Hin Hn. destruct (Hafter l' Hin Hn).
Qed.

Lemma entries_of_distinct_lots (lots : list lot) (pt : Py.dict summary) :
  for_each analyze_lot lots [] = Ok pt ->
  NoDup (map lot_name lots) ->
  forall name s,
    Py.dict_get name pt = Some s <->
    exists l, In l lots /\ analyze_lot l [] = Ok [(name, s)].
Proof.
  intros Hloop Hnd name s. split.
  - intros Hget.
    destruct (for_each_provenance _ _ _ _ _ Hloop Hget)
      as [Hnil | (l & cap & df & p & c & Hin & Hn & Hc & Hdf & Hne & Hu & Hp & Hcn & ->)].
    + discriminate.
    + exists l. split; [exact Hin |].
      rewrite (analyze_lot_summarised l name cap df p c []) by assumption.
      reflexivity.
  - intros (l & Hin & Hl).
    destruct (in_split l lots Hin) as (before & after & ->).
    apply (for_each_entry_of_last before after l pt name s Hloop Hl).
    intros l' Hin' Hn'.
    destruct (analyze_lot_Ok _ _ _ Hl) as (name' & cap & df & Hn & _ & _ & Hcases).
    assert (name' = name).
    { destruct Hcases as [[_ E] | (_ & _ & p & c & _ & _ & E)]; [discriminate |].
      cbn in E. congruence. }
    subst name'.
    rewrite map_app in Hnd. cbn [map] in Hnd.
    apply NoDup_remove_2 in Hnd. apply Hnd.
    apply in_or_app. right. rewrite Hn, <- Hn'. apply in_map. exact Hin'.
Qed.

(** X13: with pairwise distinct lot names the order of the fetch does not
    matter.  If a run over lots with distinct names returns, a run over
    the same lots in any other order returns as well, and the two mappings
    hold the same summary under every name. *)
Theorem fetch_order_is_irrelevant (lots lots' : list lot) (w : world)
        (pt : Py.dict summary) :
  Permutation lots lots' ->
  NoDup (map lot_name lots) ->
  snd (analyze_parking_data (Ok lots) w) = Ok pt ->
  exists pt',
    snd (analyze_parking_data (Ok lots') w) = Ok pt' /\
    forall name, Py.dict_get name pt' = Py.dict_get name pt.
Proof.
  intros Hperm Hnd Hrun.
  assert (Hopen : can_open w = true).
  { unfold analyze_parking_data in Hrun. cbn [bind] in Hrun.
    destruct (for_each analyze_lot lots []); [| discriminate].
    destruct (can_open w); [reflexivity | discriminate]. }
  apply run_Ok_loop in Hrun.
  assert (Hok : is_ok (for_each analyze_lot lots' []) = true).
  { apply for_each_is_ok. intros l Hin.
    assert (Hall : is_ok (for_each analyze_lot lots []) = true) by (rewrite Hrun; reflexivity).
    apply (proj1 (for_each_is_ok lots []) Hall).
    eapply Permutation_in; [apply Permutation_sym, Hperm | exact Hin]. }
  destruct (for_each analyze_lot lots' []) as [pt' |] eqn:Hloop'; [| discriminate].
  exists pt'. split.
  - unfold analyze_parking_data. cbn [bind]. rewrite Hloop', Hopen. reflexivity.
  - assert (Hnd' : NoDup (map lot_name lots')).
    { eapply Permutation_NoDup; [apply Permutation_map, Hperm | exact Hnd]. }
    assert (Hsame : forall name s,
               Py.dict_get name pt' = Some s <-> Py.dict_get name pt = Some s).
    { intros name s.
      rewrite (entries_of_distinct_lots lots' pt' Hloop' Hnd' name s).
      rewrite (entries_of_distinct_lots lots pt Hrun Hnd name s).
      split; intros (l & Hin & Hl); exists l; (split; [| exact Hl]).
      - eapply Permutation_in; [apply Permutation_sym, Hperm | exact Hin].
      - eapply Permutation_in; [exact Hperm | exact Hin]. }
    intros name.
    destruct (Py.dict_get name pt') as [s' |] eqn:E'.
    + symmetry. apply Hsame. exact E'.
    + destruct (Py.dict_get name pt) as [s |] eqn:E; [| reflexivity].
      apply Hsame in E. congruence.
Qed.

Lemma fetch_order_is_irrelevant_witness :
  Permutation [North; Late] [Late; North] /\
  NoDup (map lot_name [North; Late]) /\
  snd (analyze_parking_data (Ok [North; Late]) fresh_world)
  = Ok [("North", North_summary);
        ("Late", summary_of 4 [(7, PyInt 2)] "Staff" 1)] /\
  exists pt',
    snd (analyze_parking_data (Ok [Late; North]) fresh_world) = Ok pt' /\
    forall name,
      Py.dict_get name pt' =
      Py.dict_get name [("North", North_summary);
                        ("Late", summary_of 4 [(7, PyInt 2)] "Staff" 1)].
Proof.
  assert (Hnd : NoDup (map lot_name [North; Late])).
  { cbn. constructor.
    - intros [E | []]. discriminate.
    - constructor; [intros [] | constructor]. }
  split; [apply perm_swap |].
  split; [exact Hnd |].
  split; [vm_compute; reflexivity |].
  apply (fetch_order_is_irrelevant [North; Late] [Late; North] fresh_world).
  - apply perm_swap.
  - exact Hnd.
  - vm_compute. reflexivity.
Defined.
